(** * Streaming chat service of the AI tutor backend

    Shallow embedding of [src/backend/tutor_chat/chat_service.py]
    ([CodeAssistChatService.get_chat_response]) and of the call made by
    [src/backend/tutor_chat/chat_router.py] ([chat]).

    The async generator is modelled in a small monad [Gen]: it threads a
    trace of the events already yielded and of the model calls already
    made, and a result that is either a Python exception or a value.
    Yielded events stay in the trace when an exception is raised
    afterwards, as they do for a generator whose consumer already received
    them.  Each yielded event is modelled as its [StreamedChatResponse]
    value; the SSE framing ["data: <json>"] is left out.  The two LLM
    clients of the service are oracles: a function from the prompt to the
    run of the streamed completion, and a function from the structured
    input to the structured result.  What Python does with an object
    reached by an attribute access in a prompt template is a parameter
    too ([StrAttrRuntime]): the theorems hold for every such runtime, the
    examples at the end use one. *)

From Stdlib Require Import String Ascii List Bool NArith DecimalString.
Import ListNotations.
Open Scope string_scope.
Open Scope list_scope.

(* ------------------------------------------------------------------ *)
(** ** Strings *)

Definition nl : string := String (ascii_of_nat 10) EmptyString.

(** Python's [str.lower] on code points 0-255 (strings hold Latin-1
    characters): A-Z and the Latin-1 capitals except the multiplication
    sign are shifted by 32. *)
Definition lower_char (c : ascii) : ascii :=
  let n := nat_of_ascii c in
  if (Nat.leb 65 n && Nat.leb n 90) || (Nat.leb 192 n && Nat.leb n 222 && negb (Nat.eqb n 215))
  then ascii_of_nat (n + 32) else c.

Fixpoint lower (s : string) : string :=
  match s with
  | EmptyString => EmptyString
  | String c r => String (lower_char c) (lower r)
  end.

(** Python's [needle in hay] for strings. *)
Fixpoint contains (needle hay : string) : bool :=
  prefix needle hay ||
  match hay with
  | EmptyString => false
  | String _ r => contains needle r
  end.

(** Characters stripped by Python's [str.strip] (code points 0-255). *)
Definition is_space (c : ascii) : bool :=
  let n := nat_of_ascii c in
  (Nat.leb 9 n && Nat.leb n 13) || (Nat.leb 28 n && Nat.leb n 32) || Nat.eqb n 133 || Nat.eqb n 160.

(** [bool(s.strip())]: the string has a non-whitespace character. *)
Fixpoint strip_nonempty (s : string) : bool :=
  match s with
  | EmptyString => false
  | String c r => negb (is_space c) || strip_nonempty r
  end.

(** [len(s.split())]: number of maximal runs of non-whitespace. *)
Fixpoint split_len_aux (in_word : bool) (s : string) : nat :=
  match s with
  | EmptyString => 0
  | String c r =>
      if is_space c then split_len_aux false r
      else if in_word then split_len_aux true r else S (split_len_aux true r)
  end.

Definition split_len (s : string) : nat := split_len_aux false s.

(* ------------------------------------------------------------------ *)
(** ** Data model (pydantic models and messages) *)

(** An entry of a follow-up list as a Python value: a [str] or any other
    object (the [isinstance(q, str)] test of the service). *)
Inductive FollowUpItem :=
| PyStr (s : string)
| PyNonStr.

Record StreamedChatResponse := mkResponse {
  text_chunk : option string;
  follow_up_prompts : option (list FollowUpItem);
  is_final : bool
}.

Record LLMStructuredOutput := mkStructuredOutput {
  main_response : string;
  follow_up_questions : option (list FollowUpItem)
}.

Inductive Role := System | Human | AI.

Record Message := mkMessage { role : Role; content : string }.

(** Python exceptions raised inside the generator.  [ValidationError] is
    pydantic's, a subclass of [ValueError]. *)
Inductive Exn :=
| ValueError (msg : string)
| ValidationError (msg : string)
| OtherError (msg : string).

(** A chunk of [chain.astream]: [None] when it has no [content]. *)
Definition Chunk := option string.

(** One run of the streamed completion: the chunks it yields, then either
    the end of the stream or an exception raised mid-stream. *)
Record StreamRun := mkStreamRun {
  chunks : list Chunk;
  stream_end : option Exn
}.

(** The dict passed to the structured chain ([structured_input]). *)
Record StructuredInput := mkStructuredInput {
  user_original_query : string;
  ai_main_response : string
}.

(** Outcome of [structured_chain.ainvoke]: the validated object or an
    exception (schema validation failure, gateway error, or a template
    error of the structured prompt, all caught by the same handlers). *)
Inductive StructuredResult :=
| SOk (o : LLMStructuredOutput)
| SRaise (e : Exn).

(** The two LLM clients held by the service ([self.main_llm] and
    [self.structured_llm]); the structured one also receives the tutor
    name, which the structured prompt template embeds. *)
Record CodeAssistChatService := mkService {
  main_llm : list Message -> StreamRun;
  structured_llm : string -> StructuredInput -> StructuredResult
}.

(** Python's [context.get(...)] values: [None] when the key is missing. *)
Record Context := mkContext {
  userId : option string;
  tutorName : option string
}.

Inductive LLMCall :=
| StreamCall (prompt : list Message)
| StructuredCall (input : StructuredInput).

(* ------------------------------------------------------------------ *)
(** ** The generator monad *)

Record Trace := mkTrace {
  emitted : list StreamedChatResponse;
  calls : list LLMCall
}.

Definition Gen (A : Type) : Type := Trace -> Trace * (Exn + A).

Definition ret {A} (a : A) : Gen A := fun t => (t, inr a).

Definition bind {A B} (m : Gen A) (k : A -> Gen B) : Gen B :=
  fun t =>
    let '(t', r) := m t in
    match r with
    | inl e => (t', inl e)
    | inr a => k a t'
    end.

Notation "x <- m ;; k" := (bind m (fun x => k))
  (at level 61, m at next level, right associativity).

Definition raise {A} (e : Exn) : Gen A := fun t => (t, inl e).

Definition lift {A} (r : Exn + A) : Gen A := fun t => (t, r).

Definition yield (ev : StreamedChatResponse) : Gen unit :=
  fun t => (mkTrace (emitted t ++ [ev]) (calls t), inr tt).

Definition record_call (c : LLMCall) : Gen unit :=
  fun t => (mkTrace (emitted t) (calls t ++ [c]), inr tt).

(** [try: m except: h] catching every [Exception]. *)
Definition try_except {A} (m : Gen A) (h : Exn -> Gen A) : Gen A :=
  fun t =>
    let '(t', r) := m t in
    match r with
    | inl e => h e t'
    | inr a => (t', inr a)
    end.

Definition sum_bind {A B} (r : Exn + A) (k : A -> Exn + B) : Exn + B :=
  match r with
  | inl e => inl e
  | inr a => k a
  end.

(* ------------------------------------------------------------------ *)
(** ** Prompt templates

    [ChatPromptTemplate.from_messages] (langchain-core) builds each message
    template with the f-string format.  Building it reads the template's
    fields with Python's [string.Formatter().parse] ([formatter_parser] of
    [Objects/stringlib/unicode_format.h]), so a malformed template raises
    [ValueError] there.  Invoking the prompt first checks that every
    top-level field name is an input of the chain ([KeyError] otherwise),
    then formats each template with [string.Formatter.format] (langchain's
    [StrictFormatter]): [_vformat] resolves each field with [get_field],
    applies its conversion with [convert_field], formats its format spec,
    itself a template, one level deeper (below depth 0 it raises), and
    calls [format(value, spec)].  Values are Python strings holding
    Latin-1 characters.  The repository pins no version of langchain-core:
    the variables of a template are taken to be the field names
    [Formatter().parse] returns, as they are. *)

Inductive Tok :=
| TLit (c : ascii)
| TField (field_name : string) (format_spec : string) (conversion : option ascii).

Definition lbrace : ascii := "{"%char.
Definition rbrace : ascii := "}"%char.

Definition snoc (s : string) (c : ascii) : string := (s ++ String c EmptyString)%string.

(** Where [MarkupIterator_next] and [parse_field] are in the template. *)
Inductive ParseMode :=
| InLiteral
| InName (name : string)
| InBracket (name : string)
| AfterBang (name : string)
| AfterConversion (name : string) (conv : ascii)
| InSpec (name : string) (conv : option ascii) (spec : string) (open : nat).

(** [formatter_parser] reports the conversion ['\0'] as [None]. *)
Definition conversion_of (c : ascii) : option ascii :=
  if Ascii.eqb c zero then None else Some c.

Definition cons_tok (t : Tok) (r : list Tok * option Exn) : list Tok * option Exn :=
  (t :: fst r, snd r).

Definition parse_error (msg : string) : list Tok * option Exn := ([], Some (ValueError msg)).

(** The tokens read before the first error, and that error: the parser is
    a generator, so [_vformat] handles the fields before a malformed one. *)
Fixpoint parse_aux (mode : ParseMode) (s : string) : list Tok * option Exn :=
  match mode, s with
  | InLiteral, EmptyString => ([], None)
  | InLiteral, String c r =>
      if Ascii.eqb c lbrace then
        match r with
        | EmptyString => parse_error "Single '{' encountered in format string"
        | String c' r' =>
            if Ascii.eqb c' lbrace then cons_tok (TLit c) (parse_aux InLiteral r')
            else parse_aux (InName EmptyString) r
        end
      else if Ascii.eqb c rbrace then
        match r with
        | String c' r' =>
            if Ascii.eqb c' rbrace then cons_tok (TLit c) (parse_aux InLiteral r')
            else parse_error "Single '}' encountered in format string"
        | EmptyString => parse_error "Single '}' encountered in format string"
        end
      else cons_tok (TLit c) (parse_aux InLiteral r)
  | InName _, EmptyString | InBracket _, EmptyString =>
      parse_error "expected '}' before end of string"
  | InName n, String c r =>
      if Ascii.eqb c lbrace then parse_error "unexpected '{' in field name"
      else if Ascii.eqb c "[" then parse_aux (InBracket (snoc n c)) r
      else if Ascii.eqb c rbrace then cons_tok (TField n EmptyString None) (parse_aux InLiteral r)
      else if Ascii.eqb c ":" then parse_aux (InSpec n None EmptyString 0) r
      else if Ascii.eqb c "!" then parse_aux (AfterBang n) r
      else parse_aux (InName (snoc n c)) r
  | InBracket n, String c r =>
      if Ascii.eqb c "]" then parse_aux (InName (snoc n c)) r
      else parse_aux (InBracket (snoc n c)) r
  | AfterBang _, EmptyString => parse_error "end of string while looking for conversion specifier"
  | AfterBang n, String c r => parse_aux (AfterConversion n c) r
  | AfterConversion _ _, EmptyString => parse_error "unmatched '{' in format spec"
  | AfterConversion n cv, String c r =>
      if Ascii.eqb c rbrace then
        cons_tok (TField n EmptyString (conversion_of cv)) (parse_aux InLiteral r)
      else if Ascii.eqb c ":" then parse_aux (InSpec n (conversion_of cv) EmptyString 0) r
      else parse_error "expected ':' after conversion specifier"
  | InSpec _ _ _ _, EmptyString => parse_error "unmatched '{' in format spec"
  | InSpec n cv sp k, String c r =>
      if Ascii.eqb c lbrace then parse_aux (InSpec n cv (snoc sp c) (S k)) r
      else if Ascii.eqb c rbrace then
        match k with
        | O => cons_tok (TField n sp cv) (parse_aux InLiteral r)
        | S k' => parse_aux (InSpec n cv (snoc sp c) k') r
        end
      else parse_aux (InSpec n cv (snoc sp c) k) r
  end.

Definition parse_template (s : string) : list Tok * option Exn := parse_aux InLiteral s.

Fixpoint field_names (ts : list Tok) : list string :=
  match ts with
  | [] => []
  | TLit _ :: ts' => field_names ts'
  | TField n _ _ :: ts' => n :: field_names ts'
  end.

(** [get_template_variables(template, "f-string")]: the whole template is
    parsed when the prompt is built; the names of its fields. *)
Definition template_variables (s : string) : Exn + list string :=
  match parse_template s with
  | (ts, None) => inr (field_names ts)
  | (_, Some e) => inl e
  end.

Fixpoint lookup_var (vars : list (string * string)) (name : string) : option string :=
  match vars with
  | [] => None
  | (k, v) :: vs => if String.eqb k name then Some v else lookup_var vs name
  end.

(** *** Field names *)

Definition decimal_value (c : ascii) : option N :=
  let n := nat_of_ascii c in
  if Nat.leb 48 n && Nat.leb n 57 then Some (N.of_nat (n - 48)) else None.

Definition PY_SSIZE_T_MAX : N := 9223372036854775807%N.

Definition too_many_digits : Exn := ValueError "Too many decimal digits in format string".

(** [get_integer] of [unicode_format.h], from the value read so far: a
    character that is not a decimal digit gives [None]; the overflow check
    is made digit by digit, before a later non-digit is reached. *)
Fixpoint get_integer_from (acc : N) (s : string) : Exn + option N :=
  match s with
  | EmptyString => inr (Some acc)
  | String c r =>
      match decimal_value c with
      | None => inr None
      | Some d =>
          if N.ltb ((PY_SSIZE_T_MAX - d) / 10)%N acc then inl too_many_digits
          else get_integer_from (acc * 10 + d)%N r
      end
  end.

Definition get_integer (s : string) : Exn + option N :=
  match s with
  | EmptyString => inr None
  | String _ _ => get_integer_from 0 s
  end.

(** [field_name_split]: the part before the first '.' or '[', and the rest. *)
Fixpoint split_field_name (s : string) : string * string :=
  match s with
  | EmptyString => (EmptyString, EmptyString)
  | String c r =>
      if Ascii.eqb c "." || Ascii.eqb c "[" then (EmptyString, s)
      else let (first, rest) := split_field_name r in (String c first, rest)
  end.

(** The values [_vformat] meets: a string, or the object reached by an
    attribute lookup on a string [base] (a bound method, a type, ...),
    named by the attribute and the rest of the field name after it. *)
Inductive PyVal :=
| VStr (s : string)
| VObj (base attr rest : string).

(** What Python does with the objects reached by attribute lookups on a
    string: the lookups themselves and the rest of the field name
    ([None] when they succeed), [str], [repr] or [ascii] of the object,
    and [format(obj, spec)].  Their results (a bound method prints its
    memory address) are not fixed by this program: the model takes them as
    a parameter. *)
Class StrAttrRuntime := {
  getattr_chain : string -> string -> string -> option Exn;
  obj_conversion : string -> string -> string -> ascii -> Exn + string;
  obj_format : string -> string -> string -> string -> Exn + string
}.

(** A runtime for the examples, whose templates have no attribute access:
    every lookup raises [AttributeError], so the other two operations are
    never reached. *)
Definition str_attr_runtime_example : StrAttrRuntime := {|
  getattr_chain := fun _ attr _ =>
    Some (OtherError ("AttributeError: 'str' object has no attribute '" ++ attr ++ "'"));
  obj_conversion := fun _ _ _ _ => inr EmptyString;
  obj_format := fun _ _ _ _ => inr EmptyString
|}.

(* ------------------------------------------------------------------ *)
(** ** The service, for any such runtime *)

Section Service.

Context {rt : StrAttrRuntime}.

Fixpoint all_chars (f : ascii -> bool) (s : string) : bool :=
  match s with
  | EmptyString => true
  | String c r => f c && all_chars f r
  end.

Fixpoint has_char (c : ascii) (s : string) : bool :=
  match s with
  | EmptyString => false
  | String c' r => Ascii.eqb c c' || has_char c r
  end.

Fixpoint concat_map (f : ascii -> string) (s : string) : string :=
  match s with
  | EmptyString => EmptyString
  | String c r => (f c ++ concat_map f r)%string
  end.

(** [str.isdigit] on Latin-1: the ASCII digits and the superscripts 1, 2, 3. *)
Definition is_py_digit (c : ascii) : bool :=
  let n := nat_of_ascii c in
  (Nat.leb 48 n && Nat.leb n 57) || Nat.eqb n 178 || Nat.eqb n 179 || Nat.eqb n 185.

Definition py_isdigit (s : string) : bool :=
  match s with
  | EmptyString => false
  | String _ _ => all_chars is_py_digit s
  end.

Definition manual_auto_error : Exn :=
  ValueError "cannot switch from manual field specification to automatic field numbering".

Definition str_of_nat (n : nat) : string := NilZero.string_of_uint (Nat.to_uint n).

(** The field numbering of [_vformat]: [auto] is [auto_arg_index], [None]
    for [False] (a field has been numbered by hand). *)
Definition number_field (name : string) (auto : option nat) : Exn + (string * option nat) :=
  if String.eqb name EmptyString then
    match auto with
    | None => inl manual_auto_error
    | Some n => inr (str_of_nat n, Some (S n))
    end
  else if py_isdigit name then
    match auto with
    | Some (S _) => inl manual_auto_error
    | _ => inr (name, None)
    end
  else inr (name, auto).

Definition attr_step (v a rest : string) : Exn + PyVal :=
  if String.eqb a EmptyString then inl (ValueError "Empty attribute in format string")
  else match getattr_chain v a rest with
       | Some e => inl e
       | None => inr (VObj v a rest)
       end.

(** [v[k]] for a string [v]: an integer index, or a key [str] indices refuse. *)
Definition item_step (v k : string) : Exn + string :=
  match get_integer k with
  | inl e => inl e
  | inr idx =>
      if String.eqb k EmptyString then inl (ValueError "Empty attribute in format string")
      else match idx with
           | Some i =>
               if N.ltb i (N.of_nat (String.length v)) then
                 match String.get (N.to_nat i) v with
                 | Some c => inr (String c EmptyString)
                 | None => inl (OtherError "IndexError: string index out of range")
                 end
               else inl (OtherError "IndexError: string index out of range")
           | None => inl (OtherError "TypeError: string indices must be integers, not 'str'")
           end
  end.

(** [FieldNameIterator_next] over the rest of a field name. *)
Inductive RestMode := NextAccessor | InAttr (name : string) | InItem (key : string).

Fixpoint resolve_rest (mode : RestMode) (v : string) (s : string) : Exn + PyVal :=
  match mode, s with
  | NextAccessor, EmptyString => inr (VStr v)
  | NextAccessor, String c r =>
      if Ascii.eqb c "." then resolve_rest (InAttr EmptyString) v r
      else if Ascii.eqb c "[" then resolve_rest (InItem EmptyString) v r
      else inl (ValueError "Only '.' or '[' may follow ']' in format field specifier")
  | InAttr a, EmptyString => attr_step v a EmptyString
  | InAttr a, String c r =>
      if Ascii.eqb c "." || Ascii.eqb c "[" then attr_step v a s
      else resolve_rest (InAttr (snoc a c)) v r
  | InItem _, EmptyString => inl (ValueError "Missing ']' in format string")
  | InItem k, String c r =>
      if Ascii.eqb c "]" then
        match item_step v k with
        | inl e => inl e
        | inr v' => resolve_rest NextAccessor v' r
        end
      else resolve_rest (InItem (snoc k c)) v r
  end.

(** [Formatter.get_field]: an integer first part indexes the (empty)
    positional arguments, any other one names a keyword argument. *)
Definition get_field (vars : list (string * string)) (field_name : string) : Exn + PyVal :=
  let (first, rest) := split_field_name field_name in
  match get_integer first with
  | inl e => inl e
  | inr (Some _) => inl (OtherError "IndexError: tuple index out of range")
  | inr None =>
      match lookup_var vars first with
      | None => inl (OtherError ("KeyError: " ++ first))
      | Some v => resolve_rest NextAccessor v rest
      end
  end.

(** *** Conversions *)

Definition backslash : ascii := "\"%char.
Definition dquote : ascii := ascii_of_nat 34.
Definition squote : ascii := "'"%char.

Definition hex_digit (n : nat) : ascii :=
  ascii_of_nat (if Nat.ltb n 10 then 48 + n else 87 + n).

Definition hex_escape (c : ascii) : string :=
  let n := nat_of_ascii c in
  String backslash (String "x" (String (hex_digit (Nat.div n 16)) (String (hex_digit (Nat.modulo n 16)) EmptyString))).

(** [Py_UNICODE_ISPRINTABLE] from U+007F to U+00FF. *)
Definition latin1_printable (n : nat) : bool :=
  negb ((Nat.leb 127 n && Nat.leb n 160) || Nat.eqb n 173).

(** One character of [unicode_repr]. *)
Definition repr_char (quote c : ascii) : string :=
  let n := nat_of_ascii c in
  if Ascii.eqb c quote || Ascii.eqb c backslash then String backslash (String c EmptyString)
  else if Nat.eqb n 9 then "\t"
  else if Nat.eqb n 10 then "\n"
  else if Nat.eqb n 13 then "\r"
  else if Nat.ltb n 32 then hex_escape c
  else if latin1_printable n then String c EmptyString
  else hex_escape c.

Definition py_repr (s : string) : string :=
  let quote := if has_char squote s && negb (has_char dquote s) then dquote else squote in
  String quote (concat_map (repr_char quote) s ++ String quote EmptyString).

Definition ascii_escape_char (c : ascii) : string :=
  if Nat.ltb (nat_of_ascii c) 128 then String c EmptyString else hex_escape c.

(** [ascii(s)]: [repr(s)] with the non-ASCII characters [backslashreplace]d. *)
Definition py_ascii (s : string) : string := concat_map ascii_escape_char (py_repr s).

(** [Formatter.convert_field]. *)
Definition convert_field (obj : PyVal) (conversion : option ascii) : Exn + PyVal :=
  match conversion with
  | None => inr obj
  | Some c =>
      if Ascii.eqb c "s" || Ascii.eqb c "r" || Ascii.eqb c "a" then
        match obj with
        | VStr s =>
            inr (VStr (if Ascii.eqb c "s" then s else if Ascii.eqb c "r" then py_repr s else py_ascii s))
        | VObj b a r => sum_bind (obj_conversion b a r c) (fun s => inr (VStr s))
        end
      else inl (ValueError ("Unknown conversion specifier " ++ String c EmptyString))
  end.

(** *** [str.__format__] ([Python/formatter_unicode.c]) *)

Record FormatSpec := mkFormatSpec {
  fill_char : ascii;
  align : ascii;
  sign : option ascii;
  no_neg_0 : bool;
  alternate : bool;
  width : option N;
  thousands_separators : option ascii;
  precision : option N;
  spec_type : ascii
}.

Definition is_alignment_token (c : ascii) : bool :=
  Ascii.eqb c "<" || Ascii.eqb c ">" || Ascii.eqb c "=" || Ascii.eqb c "^".

Definition is_sign_element (c : ascii) : bool :=
  Ascii.eqb c " " || Ascii.eqb c "+" || Ascii.eqb c "-".

(** [get_integer] of [formatter_unicode.c]: the number of digits read, their
    value and the rest of the spec. *)
Fixpoint read_digits (acc : N) (count : nat) (s : string) : Exn + (nat * N * string) :=
  match s with
  | String c r =>
      match decimal_value c with
      | Some d =>
          if N.ltb ((PY_SSIZE_T_MAX - d) / 10)%N acc then inl too_many_digits
          else read_digits (acc * 10 + d)%N (S count) r
      | None => inr (count, acc, s)
      end
  | EmptyString => inr (count, acc, s)
  end.

Definition hex_nopad (n : nat) : string :=
  if Nat.ltb n 16 then String (hex_digit n) EmptyString
  else String (hex_digit (Nat.div n 16)) (String (hex_digit (Nat.modulo n 16)) EmptyString).

(** A presentation type in an error message, as [%c] or [\x%x]. *)
Definition type_text (c : ascii) : string :=
  let n := nat_of_ascii c in
  if Nat.ltb 32 n && Nat.ltb n 128 then String c EmptyString
  else String backslash (String "x" (hex_nopad n)).

Definition both_separators_error : Exn := ValueError "Cannot specify both ',' and '_'.".

Definition separator_allowed (sep ty : ascii) : bool :=
  existsb (Ascii.eqb ty) ["d"; "e"; "f"; "g"; "E"; "G"; "%"; "F"; zero]%char
  || (Ascii.eqb sep "_" && existsb (Ascii.eqb ty) ["b"; "o"; "x"; "X"]%char).

(** [parse_internal_render_format_spec] for a [str] (default type 's',
    default alignment '<'). *)
Definition parse_format_spec (spec : string) : Exn + FormatSpec :=
  let '(fill, fill_given, al, s1) :=
    match spec with
    | String f (String a r) =>
        if is_alignment_token a then (f, true, a, r)
        else if is_alignment_token f then (" "%char, false, f, String a r)
        else (" "%char, false, "<"%char, spec)
    | String f EmptyString =>
        if is_alignment_token f then (" "%char, false, f, EmptyString)
        else (" "%char, false, "<"%char, spec)
    | EmptyString => (" "%char, false, "<"%char, spec)
    end in
  let '(sg, s2) :=
    match s1 with
    | String c r => if is_sign_element c then (Some c, r) else (None, s1)
    | EmptyString => (None, s1)
    end in
  let '(z, s3) :=
    match s2 with
    | String c r => if Ascii.eqb c "z" then (true, r) else (false, s2)
    | EmptyString => (false, s2)
    end in
  let '(alt, s4) :=
    match s3 with
    | String c r => if Ascii.eqb c "#" then (true, r) else (false, s3)
    | EmptyString => (false, s3)
    end in
  let '(fill', s5) :=
    if fill_given then (fill, s4)
    else match s4 with
         | String c r => if Ascii.eqb c "0" then ("0"%char, r) else (fill, s4)
         | EmptyString => (fill, s4)
         end in
  sum_bind (read_digits 0 0 s5) (fun '(nw, w, s6) =>
  let wd := match nw with O => None | S _ => Some w end in
  let '(sep1, s7) :=
    match s6 with
    | String c r => if Ascii.eqb c "," then (Some ","%char, r) else (None, s6)
    | EmptyString => (None, s6)
    end in
  sum_bind
    (match s7 with
     | String c r =>
         if Ascii.eqb c "_" then
           match sep1 with Some _ => inl both_separators_error | None => inr (Some "_"%char, r) end
         else inr (sep1, s7)
     | EmptyString => inr (sep1, s7)
     end) (fun '(sep, s8) =>
  sum_bind
    (match s8, sep with
     | String c _, Some u =>
         if Ascii.eqb c "," && Ascii.eqb u "_" then inl both_separators_error else inr tt
     | _, _ => inr tt
     end) (fun _ =>
  sum_bind
    (match s8 with
     | String c r =>
         if Ascii.eqb c "." then
           sum_bind (read_digits 0 0 r) (fun '(np, p, s9) =>
             match np with
             | O => inl (ValueError "Format specifier missing precision")
             | S _ => inr (Some p, s9)
             end)
         else inr (None, s8)
     | EmptyString => inr (None, s8)
     end) (fun '(prec, s10) =>
  match s10 with
  | String _ (String _ _) =>
      inl (ValueError ("Invalid format specifier '" ++ spec ++ "' for object of type 'str'"))
  | _ =>
      let ty := match s10 with String c _ => c | EmptyString => "s"%char end in
      let fs := mkFormatSpec fill' al sg z alt wd sep prec ty in
      match sep with
      | None => inr fs
      | Some c =>
          if separator_allowed c ty then inr fs
          else inl (ValueError ("Cannot specify '" ++ String c EmptyString ++ "' with '"
                                ++ type_text ty ++ "'."))
      end
  end)))).

Fixpoint repeat_char (c : ascii) (n : nat) : string :=
  match n with
  | O => EmptyString
  | S n' => String c (repeat_char c n')
  end.

(** [format_string_internal] once the spec is checked: truncation to the
    precision, then padding to the width ([calc_padding]). *)
Definition pad_str (f : FormatSpec) (s : string) : string :=
  let len := N.of_nat (String.length s) in
  let n := match precision f with Some p => N.min p len | None => len end in
  let total := match width f with Some w => N.max n w | None => n end in
  let lpad := if Ascii.eqb (align f) ">" then (total - n)%N
              else if Ascii.eqb (align f) "^" then ((total - n) / 2)%N else 0%N in
  let rpad := (total - n - lpad)%N in
  (repeat_char (fill_char f) (N.to_nat lpad) ++ substring 0 (N.to_nat n) s
   ++ repeat_char (fill_char f) (N.to_nat rpad))%string.

(** [format(s, spec)] for a string [s] ([unicode__format__]). *)
Definition format_str (s spec : string) : Exn + string :=
  match spec with
  | EmptyString => inr s
  | String _ _ =>
      sum_bind (parse_format_spec spec) (fun f =>
      if negb (Ascii.eqb (spec_type f) "s") then
        inl (ValueError ("Unknown format code '" ++ type_text (spec_type f)
                         ++ "' for object of type 'str'"))
      else match sign f with
           | Some c =>
               inl (ValueError (if Ascii.eqb c " "
                                then "Space not allowed in string format specifier"
                                else "Sign not allowed in string format specifier"))
           | None =>
               if no_neg_0 f then
                 inl (ValueError "Negative zero coercion (z) not allowed in string format specifier")
               else if alternate f then
                 inl (ValueError "Alternate form (#) not allowed in string format specifier")
               else if Ascii.eqb (align f) "=" then
                 inl (ValueError "'=' alignment not allowed in string format specifier")
               else inr (pad_str f s)
           end)
  end.

(** [Formatter.format_field]. *)
Definition format_field (obj : PyVal) (spec : string) : Exn + string :=
  match obj with
  | VStr s => format_str s spec
  | VObj b a r => obj_format b a r spec
  end.

(** *** [Formatter._vformat] *)

(** The loop of [_vformat] over the parsed template: the text so far and
    [auto_arg_index]; [field] handles one replacement field. *)
Fixpoint format_toks
    (field : option nat -> string -> string -> option ascii -> Exn + (string * option nat))
    (auto : option nat) (ts : list Tok) (err : option Exn) : Exn + (string * option nat) :=
  match ts with
  | [] =>
      match err with
      | Some e => inl e
      | None => inr (EmptyString, auto)
      end
  | TLit c :: ts' =>
      sum_bind (format_toks field auto ts' err) (fun r => inr (String c (fst r), snd r))
  | TField n sp cv :: ts' =>
      sum_bind (field auto n sp cv) (fun fr =>
      sum_bind (format_toks field (snd fr) ts' err) (fun r => inr ((fst fr ++ fst r)%string, snd r)))
  end.

(** One field: numbering, [get_field], [convert_field], the format spec
    formatted one level deeper, [format_field]. *)
Definition format_one_field (vars : list (string * string))
    (format_spec_with : option nat -> string -> Exn + (string * option nat))
    (auto : option nat) (name spec : string) (conv : option ascii)
    : Exn + (string * option nat) :=
  sum_bind (number_field name auto) (fun nr =>
  sum_bind (get_field vars (fst nr)) (fun obj =>
  sum_bind (convert_field obj conv) (fun obj' =>
  sum_bind (format_spec_with (snd nr) spec) (fun sr =>
  sum_bind (format_field obj' (fst sr)) (fun out => inr (out, snd sr)))))).

(** [_vformat] with [recursion_depth] one below [depth]. *)
Fixpoint vformat (depth : nat) (vars : list (string * string)) (auto : option nat) (s : string)
    : Exn + (string * option nat) :=
  match depth with
  | O => inl (ValueError "Max string recursion exceeded")
  | S d =>
      format_toks (format_one_field vars (vformat d vars)) auto
        (fst (parse_template s)) (snd (parse_template s))
  end.

(** [Formatter().format(s, **vars)]: [vformat] calls [_vformat] with
    [recursion_depth] 2. *)
Definition py_format (vars : list (string * string)) (s : string) : Exn + string :=
  sum_bind (vformat 3 vars (Some 0) s) (fun r => inr (fst r)).

(** *** The langchain layer *)

Definition missing_variable (vars : list (string * string)) (names : list string) : option string :=
  find (fun n => match lookup_var vars n with None => true | Some _ => false end) names.

Definition missing_variables_error (v : string) : Exn :=
  OtherError ("KeyError: Input to ChatPromptTemplate is missing variables " ++ v).

(** [ChatPromptTemplate.from_messages]: each template with its variables. *)
Fixpoint from_messages (ms : list (Role * string)) : Exn + list (Role * string * list string) :=
  match ms with
  | [] => inr []
  | (r, s) :: ms' =>
      sum_bind (template_variables s) (fun names =>
      sum_bind (from_messages ms') (fun rest => inr ((r, s, names) :: rest)))
  end.

Fixpoint format_each (tpl : list (Role * string * list string)) (vars : list (string * string))
    : Exn + list Message :=
  match tpl with
  | [] => inr []
  | (r, s, _) :: tpl' =>
      sum_bind (py_format vars s) (fun c =>
      sum_bind (format_each tpl' vars) (fun rest => inr (mkMessage r c :: rest)))
  end.

(** [chat_prompt.invoke(vars)]: [_validate_input], then each message. *)
Definition format_messages (tpl : list (Role * string * list string))
    (vars : list (string * string)) : Exn + list Message :=
  match missing_variable vars (flat_map (fun t => snd t) tpl) with
  | Some v => inl (missing_variables_error v)
  | None => format_each tpl vars
  end.

(** One template built and invoked on its own. *)
Definition render (vars : list (string * string)) (s : string) : Exn + string :=
  sum_bind (template_variables s) (fun names =>
  match missing_variable vars names with
  | Some v => inl (missing_variables_error v)
  | None => py_format vars s
  end).

(* ------------------------------------------------------------------ *)
(** ** [get_chat_response] *)

Definition indent : string := "            ".

Definition system_prompt_text (tutor_name : string) : string :=
  ("You are a helpful and engaging mentor named " ++ tutor_name ++ " who helps students learn." ++ nl ++
   indent ++ "Remember to:" ++ nl ++
   indent ++ "1. Suggest improvements" ++ nl ++
   indent ++ "2. Be encouraging and supportive" ++ nl ++
   indent ++ "3. Focus on teaching and understanding" ++ nl ++
   nl ++
   indent ++ "IMPORTANT:" ++ nl ++
   indent ++ "- If question is not related to learning domain, politely decline in a humorous tone." ++ nl ++
   indent ++ "- Always refer to yourself as " ++ tutor_name ++ " and NOT as an AI assistant.")%string.

Definition id_note (user_id : string) : string :=
  (nl ++ nl ++ "(Note: The user's registered email/ID is: " ++ user_id ++ ")")%string.

(** The augmentation condition of line 116. *)
Definition asks_for_id (user_id message : string) : bool :=
  contains "@" user_id &&
  (contains "my email" (lower message) || contains "what's my email" (lower message)
   || contains "my user id" (lower message)).

(** Python truthiness of the [context.get] value. *)
Definition truthy (v : option string) : bool :=
  match v with
  | Some (String _ _) => true
  | _ => false
  end.

(** Python truthiness of an optional list. *)
Definition truthy_list {A} (v : option (list A)) : bool :=
  match v with
  | Some (_ :: _) => true
  | _ => false
  end.

Definition valid_item (q : FollowUpItem) : bool :=
  match q with
  | PyStr s => strip_nonempty s
  | PyNonStr => false
  end.

Definition too_long (q : FollowUpItem) : bool :=
  match q with
  | PyStr s => Nat.ltb 7 (split_len s)
  | PyNonStr => false
  end.

(** Lines 204-214: the follow-up list put into the final event. *)
Definition final_follow_ups (fq : option (list FollowUpItem)) : option (list FollowUpItem) :=
  let follow_ups :=
    if truthy_list fq && negb (forallb valid_item (match fq with Some l => l | None => [] end))
    then None
    else if truthy_list fq && existsb too_long (match fq with Some l => l | None => [] end)
    then fq (* warning logged, the list is kept *)
    else fq in
  if truthy_list follow_ups then follow_ups else None.

(** Lines 128-138: the [async for] over the streamed chunks. *)
Fixpoint stream_chunks (cs : list Chunk) (accumulated_text : string) : Gen string :=
  match cs with
  | [] => ret accumulated_text
  | Some (String _ _ as chunk_text) :: cs' =>
      _ <- yield (mkResponse (Some chunk_text) None false) ;;
      stream_chunks cs' (accumulated_text ++ chunk_text)%string
  | _ :: cs' => stream_chunks cs' accumulated_text
  end.

Definition require (v : option string) (e : Exn) : Gen string :=
  match v with
  | Some (String _ _ as s) => ret s
  | _ => raise e
  end.

Definition final_empty : StreamedChatResponse := mkResponse None None true.

Definition config_error_response (msg : string) : StreamedChatResponse :=
  mkResponse (Some ("I apologize, but there's a configuration issue: " ++ msg)%string) None true.

Definition generic_error_response : StreamedChatResponse :=
  mkResponse (Some "I apologize, but I encountered an error. Please try again later."%string) None true.

Definition exn_handler (e : Exn) : Gen unit :=
  match e with
  | ValueError m | ValidationError m => yield (config_error_response m)
  | OtherError _ => yield generic_error_response
  end.

Definition followup_stage (self : CodeAssistChatService) (tutor_name message accumulated_text : string)
  : Gen unit :=
  try_except
    (let structured_input := mkStructuredInput message accumulated_text in
     _ <- record_call (StructuredCall structured_input) ;;
     structured_response <-
       lift (match structured_llm self tutor_name structured_input with
             | SOk o => inr o
             | SRaise e => inl e
             end) ;;
     let follow_ups := final_follow_ups (follow_up_questions structured_response) in
     yield (mkResponse None follow_ups true))
    (fun _ => yield final_empty).

(** The human message content of lines 114-117. *)
Definition human_message_content (user_id message : string) : string :=
  if asks_for_id user_id message then (message ++ id_note user_id)%string else message.

(** The body of the outer [try] (lines 97-227). *)
Definition chat_body (self : CodeAssistChatService) (message : string) (context : Context)
  : Gen unit :=
  let user_id := userId context in
  let tutor_name := tutorName context in
  uid <- require user_id (ValueError "User ID must be provided in context.") ;;
  tn <- require tutor_name (ValueError "Tutor name must be provided in context.") ;;
  let system_prompt := system_prompt_text tn in
  chat_prompt <- lift (from_messages [(System, system_prompt); (Human, "{user_input}"%string)]) ;;
  prompt_messages <-
    lift (format_messages chat_prompt [("user_input"%string, human_message_content uid message)]) ;;
  _ <- record_call (StreamCall prompt_messages) ;;
  let run := main_llm self prompt_messages in
  accumulated_text <- stream_chunks (chunks run) EmptyString ;;
  _ <- match stream_end run with
       | Some e => raise e
       | None => ret tt
       end ;;
  followup_stage self tn message accumulated_text.

(** [get_chat_response(self, message, context)]: the body under the outer
    handlers for [ValueError] and [Exception] (lines 229-242). *)
Definition get_chat_response (self : CodeAssistChatService) (message : string) (context : Context)
  : Gen unit :=
  try_except (chat_body self message context) exn_handler.

(** Running the generator to its end from an empty trace. *)
Definition run_turn (self : CodeAssistChatService) (message : string) (context : Context)
  : Trace * (Exn + unit) :=
  get_chat_response self message context (mkTrace [] []).

Definition turn_events self message context : list StreamedChatResponse :=
  emitted (fst (run_turn self message context)).

Definition turn_calls self message context : list LLMCall :=
  calls (fst (run_turn self message context)).

(** The service object after a call: [get_chat_response] assigns no
    attribute of [self] and the module keeps no other state, so the next
    call sees the same service. *)
Definition chat_turn (self : CodeAssistChatService) (message : string) (context : Context)
  : Trace * CodeAssistChatService :=
  (fst (run_turn self message context), self).

(** The messages a prompt places between its system message and the
    current human message: where a conversation's stored history would be
    passed to the model. *)
Definition prompt_history (p : list Message) : list Message := removelast (tl p).

(* ------------------------------------------------------------------ *)
(** ** The router ([chat_router.py]) *)

(** The pydantic request models: [userId], [tutorName] and
    [conversationId] are required strings. *)
Record ChatContext := mkChatContext {
  ctx_userId : string;
  ctx_tutorName : string
}.

Record ChatRequest := mkChatRequest {
  conversationId : string;
  req_message : string;
  req_context : ChatContext
}.

Definition model_dump (c : ChatContext) : Context :=
  mkContext (Some (ctx_userId c)) (Some (ctx_tutorName c)).

(** Parameters of [get_chat_response] besides [self], and the keyword
    arguments the router passes (lines 57-62). *)
Definition get_chat_response_params : list string := ["message"; "context"]%string.

Definition router_call_kwargs : list string := ["message"; "conversationId"; "context"]%string.

(** Python's argument binding: the first keyword argument that names no
    parameter (the function has no [**kwargs]) raises [TypeError]. *)
Fixpoint unexpected_kwarg (params kwargs : list string) : option string :=
  match kwargs with
  | [] => None
  | k :: ks => if existsb (String.eqb k) params then unexpected_kwarg params ks else Some k
  end.

Inductive HttpResponse :=
| StreamingResponse (body : list StreamedChatResponse)
| HTTPException (status_code : nat) (detail : string).

(** [chat(chat_request)]: the call of [get_chat_response] binds its
    arguments before the generator exists; a [TypeError] there falls to the
    [except Exception] handler (HTTP 500), a [ValueError] to HTTP 400. *)
Definition chat (svc : CodeAssistChatService) (req : ChatRequest) : HttpResponse :=
  match unexpected_kwarg get_chat_response_params router_call_kwargs with
  | Some k =>
      HTTPException 500
        ("CodeAssistChatService.get_chat_response() got an unexpected keyword argument '"
         ++ k ++ "'")%string
  | None =>
      StreamingResponse (turn_events svc (req_message req) (model_dump (req_context req)))
  end.

(** The service's handling of a request's turn: [get_chat_response]
    applied to the arguments it accepts, the request's message and
    context ([conversationId] is not among its parameters). *)
Definition request_turn (svc : CodeAssistChatService) (req : ChatRequest) : Trace :=
  fst (run_turn svc (req_message req) (model_dump (req_context req))).

(* ------------------------------------------------------------------ *)
(** ** Helper lemmas *)

Fixpoint fragments (cs : list Chunk) : list string :=
  match cs with
  | [] => []
  | Some (String c s) :: cs' => String c s :: fragments cs'
  | _ :: cs' => fragments cs'
  end.

Definition chunk_event (s : string) : StreamedChatResponse := mkResponse (Some s) None false.

(** A turn in closed form, used to reason about [get_chat_response]: the
    validation and prompt construction, then the four ways a turn ends. *)
Definition prepare (message : string) (context : Context) : Exn + (string * list Message) :=
  match userId context with
  | Some (String _ _ as uid) =>
      match tutorName context with
      | Some (String _ _ as tn) =>
          sum_bind (from_messages [(System, system_prompt_text tn); (Human, "{user_input}"%string)])
            (fun tpl =>
               sum_bind (format_messages tpl [("user_input"%string, human_message_content uid message)])
                 (fun p => inr (tn, p)))
      | _ => inl (ValueError "Tutor name must be provided in context.")
      end
  | _ => inl (ValueError "User ID must be provided in context.")
  end.

Definition handler_event (e : Exn) : StreamedChatResponse :=
  match e with
  | ValueError m | ValidationError m => config_error_response m
  | OtherError _ => generic_error_response
  end.

Definition turn_closed_form (self : CodeAssistChatService) (message : string) (context : Context)
  : Trace :=
  match prepare message context with
  | inl e => mkTrace [handler_event e] []
  | inr (tn, p) =>
      let run := main_llm self p in
      let evs := map chunk_event (fragments (chunks run)) in
      match stream_end run with
      | Some e => mkTrace (evs ++ [handler_event e]) [StreamCall p]
      | None =>
          let i := mkStructuredInput message (String.concat "" (fragments (chunks run))) in
          mkTrace
            (evs ++ [match structured_llm self tn i with
                     | SOk o => mkResponse None (final_follow_ups (follow_up_questions o)) true
                     | SRaise _ => final_empty
                     end])
            [StreamCall p; StructuredCall i]
      end
  end.

(** The prompts of the streamed-completion calls in a trace. *)
Definition stream_prompts (cs : list LLMCall) : list (list Message) :=
  flat_map (fun c => match c with StreamCall p => [p] | StructuredCall _ => [] end) cs.

(** Concrete services and inputs. *)
Definition ctx_example : Context := mkContext (Some "a@b.com"%string) (Some "Ada"%string).

Definition hello_world_run : StreamRun := mkStreamRun [Some "Hello"%string; Some " world"%string] None.

Definition svc_example : CodeAssistChatService :=
  mkService (fun _ => hello_world_run) (fun _ _ => SOk (mkStructuredOutput "" None)).

Definition svc_followup_fails : CodeAssistChatService :=
  mkService (fun _ => hello_world_run)
    (fun _ _ => SRaise (ValidationError "1 validation error for LLMStructuredOutput")).

Definition long_followup_output : LLMStructuredOutput :=
  mkStructuredOutput ""
    (Some [PyStr "How do decorators work with arguments in Python?"; PyStr "Common use cases?"]).

Definition svc_long_followups : CodeAssistChatService :=
  mkService (fun _ => hello_world_run) (fun _ _ => SOk long_followup_output).

Definition prompt_example (human : string) : list Message :=
  [mkMessage System (system_prompt_text "Ada"); mkMessage Human human].

(* ------------------------------------------------------------------ *)
(** ** [CodeAssistChatService.__init__] (lines 44-88) *)

Definition required_env_var_names : list string :=
  ["AZURE_OPENAI_API_VERSION"; "AZURE_OPENAI_DEPLOYMENT_NAME";
   "AZURE_OPENAI_ENDPOINT"; "AZURE_OPENAI_API_KEY"].

Fixpoint all_space (s : string) : bool :=
  match s with
  | EmptyString => true
  | String c r => is_space c && all_space r
  end.

(** Python's [str.isspace]: non-empty and only whitespace. *)
Definition py_isspace (s : string) : bool :=
  match s with
  | EmptyString => false
  | String _ _ => all_space s
  end.

(** [not v or v.isspace()] for the value of [os.getenv]. *)
Definition env_value_missing (v : option string) : bool :=
  match v with
  | None => true
  | Some s => String.eqb s "" || py_isspace s
  end.

(** The keyword arguments given to [AzureChatOpenAI]; the temperature is
    kept in tenths (0.7 and 0.3 in the source), [structured_output] marks
    the [.with_structured_output(LLMStructuredOutput)] wrapper. *)
Record AzureChatOpenAIConfig := mkAzureConfig {
  openai_api_version : string;
  azure_deployment : string;
  azure_endpoint : string;
  api_key : string;
  temperature_tenths : nat;
  streaming : bool;
  structured_output : bool
}.

Inductive ChatServiceError := MkChatServiceError (msg : string).

(** [__init__]: [env] is [os.getenv]; [azure_init] is the construction of
    a client, [Some err] when it raises with message [err].  The result is
    the raised [ChatServiceError] or the two configured clients. *)
Definition service_init (env : string -> option string)
    (azure_init : AzureChatOpenAIConfig -> option string)
  : ChatServiceError + (AzureChatOpenAIConfig * AzureChatOpenAIConfig) :=
  let missing_vars := filter (fun k => env_value_missing (env k)) required_env_var_names in
  match missing_vars with
  | _ :: _ =>
      inl (MkChatServiceError
             ("Missing or empty required environment variables: " ++ String.concat ", " missing_vars))
  | [] =>
      let get k := match env k with Some v => v | None => "" end in
      let main_cfg :=
        mkAzureConfig (get "AZURE_OPENAI_API_VERSION") (get "AZURE_OPENAI_DEPLOYMENT_NAME")
          (get "AZURE_OPENAI_ENDPOINT") (get "AZURE_OPENAI_API_KEY") 7 true false in
      match azure_init main_cfg with
      | Some err => inl (MkChatServiceError ("Failed to initialize AzureOpenAI: " ++ err))
      | None =>
          let structured_cfg :=
            mkAzureConfig (get "AZURE_OPENAI_API_VERSION") (get "AZURE_OPENAI_DEPLOYMENT_NAME")
              (get "AZURE_OPENAI_ENDPOINT") (get "AZURE_OPENAI_API_KEY") 3 false true in
          match azure_init structured_cfg with
          | Some err => inl (MkChatServiceError ("Failed to initialize AzureOpenAI: " ++ err))
          | None => inr (main_cfg, structured_cfg)
          end
      end
  end.

Definition env_key_blank (k : string) : option string :=
  if String.eqb k "AZURE_OPENAI_API_KEY" then Some "   "
  else if String.eqb k "AZURE_OPENAI_ENDPOINT" then None
  else Some "x".

Definition env_complete (k : string) : option string :=
  if String.eqb k "AZURE_OPENAI_API_VERSION" then Some "2024-02-01"
  else if String.eqb k "AZURE_OPENAI_DEPLOYMENT_NAME" then Some "gpt-4o"
  else if String.eqb k "AZURE_OPENAI_ENDPOINT" then Some "https://example.openai.azure.com"
  else if String.eqb k "AZURE_OPENAI_API_KEY" then Some "key"
  else None.

(** A construction that raises for the structured client only. *)
Definition azure_init_structured_fails (cfg : AzureChatOpenAIConfig) : option string :=
  if structured_output cfg then Some "invalid response format" else None.

(* ------------------------------------------------------------------ *)
(** ** Templates without braces, streamed text *)

Fixpoint brace_free (s : string) : bool :=
  match s with
  | EmptyString => true
  | String c r =>
      if ascii_dec c lbrace then false
      else if ascii_dec c rbrace then false
      else brace_free r
  end.

Fixpoint lits (s : string) : list Tok :=
  match s with
  | EmptyString => []
  | String c r => TLit c :: lits r
  end.

(** The text of the non-final events of a stream, concatenated (what a
    client displays from the [text_chunk]s). *)
Definition streamed_text (evs : list StreamedChatResponse) : string :=
  String.concat ""
    (flat_map (fun e => if is_final e then []
                        else match text_chunk e with Some s => [s] | None => [] end) evs).

Definition svc_stream_fails : CodeAssistChatService :=
  mkService (fun _ => mkStreamRun [Some "Hel"] (Some (OtherError "Connection reset")))
    (fun _ _ => SOk (mkStructuredOutput "" None)).

Lemma string_app_assoc (a b c : string) : (a ++ (b ++ c))%string = ((a ++ b) ++ c)%string.
Proof. induction a as [|x a IH]; simpl; [reflexivity | now rewrite IH]. Qed.

Lemma string_app_nil_r (a : string) : (a ++ "")%string = a.
Proof. induction a as [|x a IH]; simpl; [reflexivity | now rewrite IH]. Qed.

Lemma stream_chunks_run (cs : list Chunk) : forall acc t,
  stream_chunks cs acc t =
  (mkTrace (emitted t ++ map chunk_event (fragments cs)) (calls t),
   inr (acc ++ String.concat "" (fragments cs))%string).
Proof.
  induction cs as [|c cs IH]; intros acc t.
  - simpl. rewrite app_nil_r, string_app_nil_r. destruct t; reflexivity.
  - destruct c as [[|x s]|]; simpl.
    + apply IH.
    + unfold bind, yield. rewrite IH. simpl. rewrite <- app_assoc. simpl.
      f_equal. f_equal. rewrite <- string_app_assoc.
      destruct (fragments cs); simpl; [rewrite string_app_nil_r|]; reflexivity.
    + apply IH.
Qed.

Ltac close_handler :=
  cbv beta iota zeta delta [exn_handler handler_event yield];
  first [ reflexivity | match goal with e : Exn |- _ => destruct e; reflexivity end ].

Lemma run_turn_closed_form self message context :
  run_turn self message context = (turn_closed_form self message context, inr tt).
Proof.
  assert (H := stream_chunks_run).
  unfold turn_closed_form, prepare, sum_bind.
  cbv beta iota zeta delta [run_turn get_chat_response try_except chat_body bind require
                            lift record_call ret raise].
  destruct (userId context) as [[|c u]|]; cbv beta iota zeta; [close_handler| |close_handler].
  destruct (tutorName context) as [[|c' tn]|]; cbv beta iota zeta; [close_handler| |close_handler].
  destruct (from_messages _) as [e|tpl]; cbv beta iota zeta; [close_handler|].
  destruct (format_messages _ _) as [e|p]; cbv beta iota zeta; [close_handler|].
  rewrite H; cbv beta iota zeta.
  destruct (stream_end _) as [e|]; cbv beta iota zeta.
  - close_handler.
  - cbv beta iota zeta delta [followup_stage try_except bind record_call lift yield].
    destruct (structured_llm _ _ _) as [o|e]; cbv beta iota zeta; simpl; reflexivity.
Qed.

Lemma turn_events_closed_form self message context :
  turn_events self message context = emitted (turn_closed_form self message context).
Proof. unfold turn_events. now rewrite run_turn_closed_form. Qed.

Lemma turn_calls_closed_form self message context :
  turn_calls self message context = calls (turn_closed_form self message context).
Proof. unfold turn_calls. now rewrite run_turn_closed_form. Qed.

Lemma fragments_nonempty cs : Forall (fun s => s <> EmptyString) (fragments cs).
Proof.
  induction cs as [|[[|x s]|] cs IH]; simpl; auto.
  constructor; [discriminate | exact IH].
Qed.

Lemma fragments_of_nonempty frags :
  Forall (fun s => s <> EmptyString) frags -> fragments (map Some frags) = frags.
Proof.
  induction 1 as [|[|x s] l Hx _ IH]; simpl; [reflexivity | congruence | now rewrite IH].
Qed.

Lemma chunk_events_shape cs :
  Forall (fun x => is_final x = false /\ exists s, text_chunk x = Some s /\ s <> EmptyString)
    (map chunk_event (fragments cs)).
Proof.
  apply Forall_map. eapply Forall_impl; [|apply fragments_nonempty].
  intros s Hs. simpl. eauto.
Qed.

Lemma handler_event_shape e :
  is_final (handler_event e) = true /\ follow_up_prompts (handler_event e) = None /\
  exists m, text_chunk (handler_event e) = Some m /\ m <> EmptyString.
Proof. destruct e; simpl; repeat split; eexists; split; reflexivity || discriminate. Qed.

Lemma template_variables_human : template_variables "{user_input}" = inr ["user_input"].
Proof. reflexivity. Qed.

Lemma py_format_human hmc : py_format [("user_input"%string, hmc)] "{user_input}" = inr hmc.
Proof. unfold py_format. simpl. now rewrite string_app_nil_r. Qed.

Lemma find_app {A} (f : A -> bool) l1 l2 :
  find f (l1 ++ l2) = match find f l1 with Some x => Some x | None => find f l2 end.
Proof. induction l1 as [|a l1 IH]; simpl; [reflexivity|]. destruct (f a); [reflexivity | exact IH]. Qed.

Lemma missing_variable_user_input hmc names :
  missing_variable [("user_input"%string, hmc)] (names ++ ["user_input"]) =
  missing_variable [("user_input"%string, hmc)] names.
Proof. unfold missing_variable. rewrite find_app. now destruct (find _ names). Qed.

(** With a user id and a tutor name, building and invoking the prompt is
    rendering the system template on its own: the human template has the
    one variable [user_input], which the input provides. *)
Lemma prepare_render message context uid tn :
  userId context = Some uid -> uid <> EmptyString ->
  tutorName context = Some tn -> tn <> EmptyString ->
  prepare message context =
  sum_bind (render [("user_input"%string, human_message_content uid message)] (system_prompt_text tn))
    (fun sp => inr (tn, [mkMessage System sp; mkMessage Human (human_message_content uid message)])).
Proof.
  intros Hu Hune Ht Htne. unfold prepare. rewrite Hu, Ht.
  destruct uid as [|cu u]; [contradiction|]. destruct tn as [|ct t]; [contradiction|].
  cbv beta iota zeta delta [from_messages format_messages format_each sum_bind render].
  rewrite template_variables_human.
  destruct (template_variables (system_prompt_text _)) as [e|names]; [reflexivity|].
  cbn [flat_map snd app]. rewrite missing_variable_user_input.
  destruct (missing_variable _ names); [reflexivity|].
  destruct (py_format _ (system_prompt_text _)); [reflexivity|].
  rewrite py_format_human. reflexivity.
Qed.

Lemma prepare_inr message context tn p :
  prepare message context = inr (tn, p) ->
  exists uid sp,
    userId context = Some uid /\ uid <> EmptyString /\
    tutorName context = Some tn /\ tn <> EmptyString /\
    render [("user_input"%string, human_message_content uid message)] (system_prompt_text tn) = inr sp /\
    p = [mkMessage System sp; mkMessage Human (human_message_content uid message)].
Proof.
  intros Hp.
  destruct (userId context) as [[|cu u]|] eqn:Hu;
    [unfold prepare in Hp; rewrite Hu in Hp; discriminate | | unfold prepare in Hp; rewrite Hu in Hp; discriminate].
  destruct (tutorName context) as [[|ct t]|] eqn:Ht;
    [unfold prepare in Hp; rewrite Hu, Ht in Hp; discriminate | |
     unfold prepare in Hp; rewrite Hu, Ht in Hp; discriminate].
  rewrite (prepare_render message context (String cu u) (String ct t)) in Hp
    by (assumption || discriminate).
  destruct (render _ _) as [e|sp] eqn:Hr; [discriminate|].
  cbn [sum_bind] in Hp. injection Hp as <- <-.
  exists (String cu u), sp. repeat split; (assumption || discriminate || reflexivity).
Qed.

Lemma turn_shape self message context :
  exists pre e,
    turn_events self message context = pre ++ [e] /\
    Forall (fun x => is_final x = false /\ exists s, text_chunk x = Some s /\ s <> EmptyString) pre /\
    is_final e = true /\
    (text_chunk e = None \/
     (follow_up_prompts e = None /\ exists m, text_chunk e = Some m /\ m <> EmptyString)) /\
    (text_chunk e = None <-> exists i, In (StructuredCall i) (turn_calls self message context)).
Proof.
  rewrite turn_events_closed_form, turn_calls_closed_form. unfold turn_closed_form.
  destruct (prepare message context) as [e|[tn p]].
  - destruct (handler_event_shape e) as (Hf & Hfu & m & Hm & Hne).
    exists [], (handler_event e). simpl.
    split; [reflexivity|]. split; [constructor|]. split; [exact Hf|].
    split; [right; eauto|].
    split; [rewrite Hm; discriminate | intros [i []]].
  - set (run := main_llm self p).
    destruct (stream_end run) as [e|].
    + destruct (handler_event_shape e) as (Hf & Hfu & m & Hm & Hne).
      eexists _, (handler_event e). simpl.
      split; [reflexivity|]. split; [apply chunk_events_shape|]. split; [exact Hf|].
      split; [right; eauto|].
      split; [rewrite Hm; discriminate | intros [i [H|[]]]; discriminate].
    + eexists _, _. simpl.
      split; [reflexivity|]. split; [apply chunk_events_shape|].
      destruct (structured_llm self tn _); simpl.
      all: split; [reflexivity|]; split; [left; reflexivity|].
      all: split; [intros _; eexists; right; left; reflexivity | reflexivity].
Qed.

Lemma forall_not_final_filter (pre : list StreamedChatResponse) :
  Forall (fun x => is_final x = false) pre -> filter is_final pre = [].
Proof. induction 1 as [|x l Hx _ IH]; simpl; [reflexivity | now rewrite Hx]. Qed.

(* ------------------------------------------------------------------ *)
(** ** Claims *)

(** C1: for every turn, whatever fails in it (missing context, malformed
    prompt template, an exception before or in the middle of the streamed
    completion, a failing follow-up generation), the generator ends
    normally (no exception escapes it) and the events it yields contain
    exactly one event with [is_final = true], which is the last one. *)
Theorem C1_exactly_one_final_event_last self message context :
  snd (run_turn self message context) = inr tt /\
  length (filter is_final (turn_events self message context)) = 1 /\
  exists pre e,
    turn_events self message context = pre ++ [e] /\ is_final e = true /\
    Forall (fun x => is_final x = false) pre.
Proof.
  split; [now rewrite run_turn_closed_form|].
  destruct (turn_shape self message context) as (pre & e & Hev & Hpre & Hfin & _).
  assert (Hnf : Forall (fun x => is_final x = false) pre)
    by (eapply Forall_impl; [|exact Hpre]; intros x [Hx _]; exact Hx).
  split.
  - rewrite Hev, filter_app, forall_not_final_filter by exact Hnf. simpl. now rewrite Hfin.
  - now exists pre, e.
Qed.

(** C2 (code bug): the router calls [get_chat_response] with a
    [conversationId] keyword argument that the method does not declare, so
    for every request the call raises [TypeError] before any generator
    exists and the router answers HTTP 500 instead of a stream. *)
Theorem C2_router_call_rejects_conversationId svc req :
  chat svc req =
  HTTPException 500
    "CodeAssistChatService.get_chat_response() got an unexpected keyword argument 'conversationId'".
Proof. reflexivity. Qed.

(** C3 (as amended): when [context.userId] or [context.tutorName] is
    missing or empty, no model call is made and the output is a single
    terminal event with [follow_up_prompts = None] and a non-empty
    descriptive [text_chunk]. *)
Theorem C3_missing_user_or_tutor_single_terminal self message context
  (H : truthy (userId context) = false \/ truthy (tutorName context) = false) :
  turn_calls self message context = [] /\
  exists msg,
    turn_events self message context = [mkResponse (Some msg) None true] /\ msg <> EmptyString.
Proof.
  rewrite turn_events_closed_form, turn_calls_closed_form. unfold turn_closed_form, prepare.
  destruct (userId context) as [[|c u]|];
    [| destruct (tutorName context) as [[|c' t]|]; [| simpl in H; destruct H; discriminate |] |];
    simpl; (split; [reflexivity | eexists; split; [reflexivity | discriminate]]).
Qed.

(** C9 (as amended): every event before the last has a non-empty
    [text_chunk] and [is_final = false]; the last has [is_final = true] and
    either carries no [text_chunk] (exactly when the turn reached the
    follow-up generation) or, on the error paths, carries the error text in
    [text_chunk] with [follow_up_prompts = None]. *)
Theorem C9_event_sequence_shape self message context :
  exists pre e,
    turn_events self message context = pre ++ [e] /\
    Forall (fun x => is_final x = false /\ exists s, text_chunk x = Some s /\ s <> EmptyString) pre /\
    is_final e = true /\
    (text_chunk e = None \/
     (follow_up_prompts e = None /\ exists m, text_chunk e = Some m /\ m <> EmptyString)) /\
    (text_chunk e = None <-> exists i, In (StructuredCall i) (turn_calls self message context)).
Proof. apply turn_shape. Qed.

(* ------------------------------------------------------------------ *)
(** ** Lemmas on the prompt and the model calls *)

Lemma prefix_self_app (n b : string) : prefix n (n ++ b) = true.
Proof.
  induction n as [|x n IH]; simpl; [destruct b; reflexivity|].
  destruct (ascii_dec x x) as [_|Hx]; [exact IH | now contradiction Hx].
Qed.

Lemma contains_of_prefix (n h : string) : prefix n h = true -> contains n h = true.
Proof. intros H. destruct h; simpl in *; rewrite H; reflexivity. Qed.

Lemma contains_self_app (n b : string) : contains n (n ++ b) = true.
Proof. apply contains_of_prefix, prefix_self_app. Qed.

Lemma contains_app_r (n a b : string) : contains n b = true -> contains n (a ++ b) = true.
Proof.
  intros H. induction a as [|x a IH]; simpl; [exact H|].
  rewrite IH. apply orb_true_r.
Qed.

Lemma contains_id_note (message uid : string) : contains uid (message ++ id_note uid) = true.
Proof.
  unfold id_note. do 4 apply contains_app_r. apply contains_self_app.
Qed.

Lemma stream_call_prepared self message context p :
  In (StreamCall p) (turn_calls self message context) ->
  (exists tn, prepare message context = inr (tn, p)) /\
  stream_prompts (turn_calls self message context) = [p].
Proof.
  rewrite turn_calls_closed_form. unfold turn_closed_form.
  destruct (prepare message context) as [e|[tn p']]; simpl; [intros H; contradiction|].
  destruct (stream_end (main_llm self p')); simpl.
  - intros [H|H]; [|contradiction].
    injection H as <-. split; [now exists tn | reflexivity].
  - intros [H|[H|H]]; [| discriminate | contradiction].
    injection H as <-. split; [now exists tn | reflexivity].
Qed.

Lemma structured_call_made self message context i :
  In (StructuredCall i) (turn_calls self message context) ->
  exists tn p,
    prepare message context = inr (tn, p) /\
    stream_end (main_llm self p) = None /\
    i = mkStructuredInput message (String.concat "" (fragments (chunks (main_llm self p)))) /\
    turn_events self message context =
      map chunk_event (fragments (chunks (main_llm self p))) ++
      [match structured_llm self tn i with
       | SOk o => mkResponse None (final_follow_ups (follow_up_questions o)) true
       | SRaise _ => final_empty
       end].
Proof.
  rewrite turn_events_closed_form, turn_calls_closed_form. unfold turn_closed_form.
  destruct (prepare message context) as [e|[tn p]]; simpl; [intros H; contradiction|].
  destruct (stream_end (main_llm self p)) eqn:Hend; simpl.
  - intros [H|H]; [discriminate | contradiction].
  - intros [H|[H|H]]; [discriminate| |contradiction]. injection H as <-.
    exists tn, p. repeat split; auto.
Qed.

Lemma stream_call_shape self message uid tn p :
  In (StreamCall p) (turn_calls self message (mkContext (Some uid) (Some tn))) ->
  exists sp,
    render [("user_input", human_message_content uid message)] (system_prompt_text tn) = inr sp /\
    p = [mkMessage System sp; mkMessage Human (human_message_content uid message)].
Proof.
  intros H. destruct (stream_call_prepared _ _ _ _ H) as [[tn' Hp] _].
  destruct (prepare_inr _ _ _ _ Hp) as (uid' & sp & Hu & _ & Ht & _ & Hr & ->).
  simpl in Hu, Ht. injection Hu as <-. injection Ht as <-. eauto.
Qed.

Lemma structured_call_tutor self message uid tn i :
  In (StructuredCall i) (turn_calls self message (mkContext (Some uid) (Some tn))) ->
  exists p,
    stream_end (main_llm self p) = None /\
    i = mkStructuredInput message (String.concat "" (fragments (chunks (main_llm self p)))) /\
    turn_events self message (mkContext (Some uid) (Some tn)) =
      map chunk_event (fragments (chunks (main_llm self p))) ++
      [match structured_llm self tn i with
       | SOk o => mkResponse None (final_follow_ups (follow_up_questions o)) true
       | SRaise _ => final_empty
       end].
Proof.
  intros H. destruct (structured_call_made _ _ _ _ H) as (tn' & p & Hp & Hend & Hi & Hev).
  destruct (prepare_inr _ _ _ _ Hp) as (uid' & sp & _ & _ & Ht & _).
  simpl in Ht. injection Ht as <-. eauto.
Qed.

(** C4 (as amended): the prompt submitted to the streamed completion is
    the rendered system message followed by the (possibly augmented)
    current human message; it carries no stored history. *)
Theorem C4_prompt_system_then_current_human self message uid tn p
  (H : In (StreamCall p) (turn_calls self message (mkContext (Some uid) (Some tn)))) :
  exists sp,
    render [("user_input", human_message_content uid message)] (system_prompt_text tn) = inr sp /\
    p = [mkMessage System sp; mkMessage Human (human_message_content uid message)].
Proof. exact (stream_call_shape self message uid tn p H). Qed.

(** C5 (as amended): the service keeps no conversation memory: a call
    leaves the service object as it was, its only prompt is the one of
    the current message, and that prompt carries no history between the
    system message and the current human message. *)
Theorem C5_no_conversation_memory self message context p
  (H : In (StreamCall p) (turn_calls self message context)) :
  snd (chat_turn self message context) = self /\
  stream_prompts (turn_calls self message context) = [p] /\
  prompt_history p = [].
Proof.
  destruct (stream_call_prepared _ _ _ _ H) as [[tn Hp] Hs].
  destruct (prepare_inr _ _ _ _ Hp) as (uid & sp & _ & _ & _ & _ & _ & ->).
  split; [reflexivity|]. split; [exact Hs | reflexivity].
Qed.

(** C6: when the structured follow-up completion raises (a validation
    error or any other exception), the generator still ends normally and
    its last event is [is_final = true] with [follow_up_prompts = None]
    and no [text_chunk]; every earlier event is non-final. *)
Theorem C6_followup_failure_recovered self message uid tn i e
  (Hcall : In (StructuredCall i) (turn_calls self message (mkContext (Some uid) (Some tn))))
  (Hfail : structured_llm self tn i = SRaise e) :
  snd (run_turn self message (mkContext (Some uid) (Some tn))) = inr tt /\
  exists pre,
    turn_events self message (mkContext (Some uid) (Some tn)) = pre ++ [mkResponse None None true] /\
    Forall (fun x => is_final x = false) pre.
Proof.
  split; [now rewrite run_turn_closed_form|].
  destruct (structured_call_tutor _ _ _ _ _ Hcall) as (p & _ & _ & Hev).
  rewrite Hfail in Hev. eexists. split; [exact Hev|].
  eapply Forall_impl; [|apply chunk_events_shape]. intros x [Hx _]. exact Hx.
Qed.

(** C7: the human message of the prompt is the message with the note
    "(Note: The user's registered email/ID is: <userId>)" appended when
    [userId] contains '@' and the lowercased message contains "my email",
    "what's my email" or "my user id", so the prompt then includes the
    literal [userId].  When the lowercased message contains none of the
    three phrases, the human message is the message itself and the whole
    turn (events, model calls and their prompts) is the same for every
    non-empty [userId]: nothing of the user id reaches the model. *)
Theorem C7_user_id_only_on_trigger self message uid tn p
  (H : In (StreamCall p) (turn_calls self message (mkContext (Some uid) (Some tn)))) :
  (exists sp, p = [mkMessage System sp; mkMessage Human (human_message_content uid message)]) /\
  (asks_for_id uid message = true ->
     human_message_content uid message = (message ++ id_note uid)%string /\
     contains uid (human_message_content uid message) = true) /\
  (contains "my email" (lower message) = false ->
   contains "what's my email" (lower message) = false ->
   contains "my user id" (lower message) = false ->
   human_message_content uid message = message /\
   forall uid', uid' <> EmptyString ->
     run_turn self message (mkContext (Some uid') (Some tn)) =
     run_turn self message (mkContext (Some uid) (Some tn))).
Proof.
  destruct (stream_call_prepared _ _ _ _ H) as [[tn' Hp] _].
  destruct (prepare_inr _ _ _ _ Hp) as (uid0 & sp0 & Hu & Hune & Ht & Htne & _).
  cbn [userId tutorName] in Hu, Ht. injection Hu as <-. injection Ht as <-.
  destruct (stream_call_shape _ _ _ _ _ H) as (sp & _ & ->).
  split; [eauto|]. split.
  - intros Ha. unfold human_message_content. rewrite Ha.
    split; [reflexivity | apply contains_id_note].
  - intros H1 H2 H3.
    assert (Hm : forall u, human_message_content u message = message).
    { intros u. unfold human_message_content, asks_for_id. rewrite H1, H2, H3.
      destruct (contains "@" u); reflexivity. }
    split; [apply Hm|]. intros uid' Hu'.
    rewrite !run_turn_closed_form. unfold turn_closed_form.
    rewrite (prepare_render message _ uid' tn), (prepare_render message _ uid tn)
      by (reflexivity || assumption).
    now rewrite !Hm.
Qed.

(** C8: when the streamed completion yields non-empty fragments and ends,
    one non-final event carrying each fragment is yielded, in order, then
    one final event; the text given to the follow-up generation is their
    concatenation. *)
Theorem C8_fragments_streamed_in_order self message uid tn p frags
  (Hcall : In (StreamCall p) (turn_calls self message (mkContext (Some uid) (Some tn))))
  (Hchunks : chunks (main_llm self p) = map Some frags)
  (Hne : Forall (fun s => s <> EmptyString) frags)
  (Hend : stream_end (main_llm self p) = None) :
  In (StructuredCall (mkStructuredInput message (String.concat "" frags)))
     (turn_calls self message (mkContext (Some uid) (Some tn))) /\
  exists e,
    turn_events self message (mkContext (Some uid) (Some tn)) = map chunk_event frags ++ [e] /\
    is_final e = true.
Proof.
  destruct (stream_call_prepared _ _ _ _ Hcall) as [[tn' Hp] _].
  rewrite turn_events_closed_form, turn_calls_closed_form. unfold turn_closed_form.
  rewrite Hp, Hend, Hchunks, (fragments_of_nonempty _ Hne). simpl.
  split; [right; left; reflexivity|].
  eexists. split; [reflexivity|].
  destruct (structured_llm self tn' _); reflexivity.
Qed.

Lemma forallb_valid_items (l : list FollowUpItem) :
  forallb valid_item l = true ->
  Forall (fun q => exists s, q = PyStr s /\ strip_nonempty s = true) l.
Proof.
  intros H. rewrite forallb_forall in H. apply Forall_forall.
  intros [s|] Hin; specialize (H _ Hin); simpl in H; [eauto | discriminate].
Qed.

Lemma existsb_negb_forallb {A} (f : A -> bool) (l : list A) :
  existsb (fun x => negb (f x)) l = negb (forallb f l).
Proof. induction l as [|x l IH]; simpl; [reflexivity|]. rewrite IH. now destruct (f x). Qed.

Lemma final_follow_ups_spec (fq : option (list FollowUpItem)) :
  (final_follow_ups fq = None \/
   exists l, final_follow_ups fq = Some l /\ l <> [] /\
     Forall (fun q => exists s, q = PyStr s /\ strip_nonempty s = true) l) /\
  (fq = Some [] -> final_follow_ups fq = None) /\
  (forall l, fq = Some l -> existsb (fun q => negb (valid_item q)) l = true -> final_follow_ups fq = None) /\
  (forall l, fq = Some l -> l <> [] -> forallb valid_item l = true -> final_follow_ups fq = Some l).
Proof.
  destruct fq as [[|q l]|]; unfold final_follow_ups; simpl.
  - split; [left; reflexivity|]. split; [intros _; reflexivity|]. split; [intros; reflexivity|].
    intros l' Hl Hne _. injection Hl as <-. contradiction.
  - destruct (valid_item q && forallb valid_item l) eqn:Hv; simpl.
    + destruct (too_long q || existsb too_long l); simpl.
      all: split; [right; exists (q :: l); split; [reflexivity|]; split; [discriminate|];
                   apply forallb_valid_items; exact Hv|].
      all: split; [intros Hl; discriminate Hl|].
      all: split; [intros l' Hl He; injection Hl as <-;
                   rewrite existsb_negb_forallb in He; simpl in He; rewrite Hv in He;
                   discriminate He|].
      all: intros l' Hl _ _; injection Hl as <-; reflexivity.
    + split; [left; reflexivity|]. split; [intros; reflexivity|].
      split; [intros; reflexivity|].
      intros l' Hl _ Hf. injection Hl as <-. simpl in Hf. rewrite Hf in Hv. discriminate Hv.
  - split; [left; reflexivity|]. split; [intros Hl; discriminate Hl|].
    split; intros l' Hl; discriminate Hl.
Qed.

(** C10: on the success path the terminal event's [follow_up_prompts] is
    the normalised follow-up list: [None] or a non-empty list of non-blank
    strings; an empty list and a list with a non-string or blank entry
    both become [None]; a list of non-blank strings is kept as it is, also
    when entries exceed the seven-word heuristic. *)
Theorem C10_follow_ups_normalised self message uid tn i o
  (Hcall : In (StructuredCall i) (turn_calls self message (mkContext (Some uid) (Some tn))))
  (Hok : structured_llm self tn i = SOk o) :
  (exists pre,
     turn_events self message (mkContext (Some uid) (Some tn)) =
     pre ++ [mkResponse None (final_follow_ups (follow_up_questions o)) true]) /\
  (final_follow_ups (follow_up_questions o) = None \/
   exists l, final_follow_ups (follow_up_questions o) = Some l /\ l <> [] /\
     Forall (fun q => exists s, q = PyStr s /\ strip_nonempty s = true) l) /\
  (follow_up_questions o = Some [] -> final_follow_ups (follow_up_questions o) = None) /\
  (forall l, follow_up_questions o = Some l ->
     existsb (fun q => negb (valid_item q)) l = true ->
     final_follow_ups (follow_up_questions o) = None) /\
  (forall l, follow_up_questions o = Some l -> l <> [] -> forallb valid_item l = true ->
     final_follow_ups (follow_up_questions o) = Some l).
Proof.
  destruct (structured_call_tutor _ _ _ _ _ Hcall) as (p & _ & _ & Hev).
  rewrite Hok in Hev. split; [eexists; exact Hev|].
  apply final_follow_ups_spec.
Qed.

(* ------------------------------------------------------------------ *)
(** ** Further properties of the service *)

Lemma filter_all_false {A} (f : A -> bool) (l : list A) :
  (forall x, In x l -> f x = false) -> filter f l = [].
Proof.
  induction l as [|x l IH]; simpl; intros H; [reflexivity|].
  rewrite H by auto. apply IH. auto.
Qed.

(** [__init__] raises [ChatServiceError] as soon as one required variable
    is unset, empty or whitespace only; the message lists every such
    variable in declaration order, and no client is constructed. *)
Theorem init_rejects_missing_env_var env azure_init k
  (Hin : In k required_env_var_names) (Hmiss : env_value_missing (env k) = true) :
  In k (filter (fun k => env_value_missing (env k)) required_env_var_names) /\
  service_init env azure_init =
  inl (MkChatServiceError
         ("Missing or empty required environment variables: " ++
          String.concat ", " (filter (fun k => env_value_missing (env k)) required_env_var_names))).
Proof.
  assert (Hf : In k (filter (fun k => env_value_missing (env k)) required_env_var_names))
    by (apply filter_In; auto).
  split; [exact Hf|]. unfold service_init. cbv beta zeta.
  destruct (filter _ required_env_var_names) eqn:E; [contradiction | reflexivity].
Qed.

Lemma env_present env k :
  In k required_env_var_names ->
  (forall k, In k required_env_var_names -> env_value_missing (env k) = false) ->
  exists v, env k = Some v.
Proof.
  intros Hin Hset. specialize (Hset k Hin).
  destruct (env k) as [v|]; [eauto | discriminate].
Qed.

(** When the four variables are set and both clients construct, [__init__]
    builds the streaming client at temperature 0.7 and the structured,
    non-streaming client at temperature 0.3, both from the same four
    values. *)
Theorem init_builds_both_clients env azure_init
  (Hset : forall k, In k required_env_var_names -> env_value_missing (env k) = false)
  (Hok : forall cfg, azure_init cfg = None) :
  exists ver dep endp key,
    env "AZURE_OPENAI_API_VERSION" = Some ver /\ env "AZURE_OPENAI_DEPLOYMENT_NAME" = Some dep /\
    env "AZURE_OPENAI_ENDPOINT" = Some endp /\ env "AZURE_OPENAI_API_KEY" = Some key /\
    service_init env azure_init =
    inr (mkAzureConfig ver dep endp key 7 true false, mkAzureConfig ver dep endp key 3 false true).
Proof.
  destruct (env_present env "AZURE_OPENAI_API_VERSION") as [ver Hv]; [simpl; tauto | exact Hset |].
  destruct (env_present env "AZURE_OPENAI_DEPLOYMENT_NAME") as [dep Hd]; [simpl; tauto | exact Hset |].
  destruct (env_present env "AZURE_OPENAI_ENDPOINT") as [endp He]; [simpl; tauto | exact Hset |].
  destruct (env_present env "AZURE_OPENAI_API_KEY") as [key Hk]; [simpl; tauto | exact Hset |].
  exists ver, dep, endp, key. repeat split; auto.
  unfold service_init. cbv beta zeta.
  rewrite (filter_all_false _ _ Hset), Hv, Hd, He, Hk, !Hok. reflexivity.
Qed.

(** When the variables are set, [__init__] raises [ChatServiceError]
    wrapping the message of the first client construction that raises:
    the streaming client's (0.7, streaming), or, when that one builds, the
    structured client's (0.3, not streaming, with its
    [.with_structured_output] wrapper). *)
Theorem init_wraps_client_error env azure_init err ver dep endp key
  (Hset : forall k, In k required_env_var_names -> env_value_missing (env k) = false)
  (Hv : env "AZURE_OPENAI_API_VERSION" = Some ver) (Hd : env "AZURE_OPENAI_DEPLOYMENT_NAME" = Some dep)
  (He : env "AZURE_OPENAI_ENDPOINT" = Some endp) (Hk : env "AZURE_OPENAI_API_KEY" = Some key)
  (Hfail : azure_init (mkAzureConfig ver dep endp key 7 true false) = Some err \/
           (azure_init (mkAzureConfig ver dep endp key 7 true false) = None /\
            azure_init (mkAzureConfig ver dep endp key 3 false true) = Some err)) :
  service_init env azure_init = inl (MkChatServiceError ("Failed to initialize AzureOpenAI: " ++ err)).
Proof.
  unfold service_init. cbv beta zeta.
  rewrite (filter_all_false _ _ Hset), Hv, Hd, He, Hk. cbv beta iota.
  destruct Hfail as [H | [H1 H2]]; [rewrite H | rewrite H1, H2]; reflexivity.
Qed.

Lemma parse_brace_free (s : string) :
  brace_free s = true -> parse_template s = (lits s, None).
Proof.
  unfold parse_template. induction s as [|c s IH]; simpl; [reflexivity|].
  destruct (ascii_dec c lbrace); [discriminate|].
  destruct (ascii_dec c rbrace); [discriminate|].
  intros H. destruct (Ascii.eqb_spec c lbrace); [contradiction|].
  destruct (Ascii.eqb_spec c rbrace); [contradiction|].
  unfold cons_tok. now rewrite (IH H).
Qed.

Lemma field_names_lits s : field_names (lits s) = [].
Proof. induction s; simpl; auto. Qed.

Lemma format_toks_lits field auto (s : string) :
  format_toks field auto (lits s) None = inr (s, auto).
Proof. induction s as [|c s IH]; simpl; [reflexivity | now rewrite IH]. Qed.

Lemma render_brace_free vars (s : string) : brace_free s = true -> render vars s = inr s.
Proof.
  intros H. unfold render, template_variables, py_format.
  rewrite (parse_brace_free s H). cbn [sum_bind]. rewrite field_names_lits. cbn [missing_variable find].
  cbn [vformat]. rewrite (parse_brace_free s H). cbn [fst snd]. now rewrite format_toks_lits.
Qed.

Lemma brace_free_app (a b : string) : brace_free (a ++ b) = brace_free a && brace_free b.
Proof.
  induction a as [|c a IH]; simpl; [reflexivity|].
  destruct (ascii_dec c lbrace); [reflexivity|]. destruct (ascii_dec c rbrace); [reflexivity|].
  exact IH.
Qed.

Lemma brace_free_system_prompt (tn : string) :
  brace_free (system_prompt_text tn) = brace_free tn.
Proof.
  unfold system_prompt_text. rewrite !brace_free_app. simpl.
  now destruct (brace_free tn).
Qed.

(** For a non-empty user id and a non-empty tutor name without braces, the
    streamed completion is called, once, and its prompt is exactly the
    system prompt with the tutor name substituted, then the (possibly
    augmented) message. *)
Theorem brace_free_tutor_prompt self message uid tn
  (Hu : uid <> EmptyString) (Ht : tn <> EmptyString) (Hb : brace_free tn = true) :
  stream_prompts (turn_calls self message (mkContext (Some uid) (Some tn))) =
  [[mkMessage System (system_prompt_text tn); mkMessage Human (human_message_content uid message)]].
Proof.
  assert (Hp : prepare message (mkContext (Some uid) (Some tn)) =
               inr (tn, [mkMessage System (system_prompt_text tn);
                         mkMessage Human (human_message_content uid message)])).
  { rewrite (prepare_render message _ uid tn) by (reflexivity || assumption).
    rewrite render_brace_free by (now rewrite brace_free_system_prompt). reflexivity. }
  rewrite turn_calls_closed_form. unfold turn_closed_form. rewrite Hp.
  destruct (stream_end _); reflexivity.
Qed.


Lemma render_tutor_field hmc :
  render [("user_input"%string, hmc)] (system_prompt_text "{user_input}") =
  inr (system_prompt_text hmc).
Proof. vm_compute. reflexivity. Qed.

Lemma render_tutor_field_repr hmc :
  render [("user_input"%string, hmc)] (system_prompt_text "{user_input!r}") =
  inr (system_prompt_text (py_repr hmc)).
Proof. vm_compute. reflexivity. Qed.

(** The tutor name is interpolated into the system prompt before the
    prompt is parsed as a template: the tutor name "{user_input}" becomes
    a field of the chain input, and the system message the model receives
    names the tutor, in both places, by the user's (possibly augmented)
    message. *)
Theorem tutor_name_field_takes_user_message self message uid
  (Hu : uid <> EmptyString) :
  stream_prompts (turn_calls self message (mkContext (Some uid) (Some "{user_input}"))) =
  [[mkMessage System (system_prompt_text (human_message_content uid message));
    mkMessage Human (human_message_content uid message)]].
Proof.
  rewrite turn_calls_closed_form. unfold turn_closed_form.
  rewrite (prepare_render message _ uid "{user_input}") by (reflexivity || assumption || discriminate).
  rewrite render_tutor_field. cbn [sum_bind].
  destruct (stream_end _); reflexivity.
Qed.

(** A field of the tutor name is formatted as Python formats it: with the
    conversion [!r], the system message names the tutor by [repr] of the
    user's (possibly augmented) message. *)
Theorem tutor_name_repr_field self message uid
  (Hu : uid <> EmptyString) :
  stream_prompts (turn_calls self message (mkContext (Some uid) (Some "{user_input!r}"))) =
  [[mkMessage System (system_prompt_text (py_repr (human_message_content uid message)));
    mkMessage Human (human_message_content uid message)]].
Proof.
  rewrite turn_calls_closed_form. unfold turn_closed_form.
  rewrite (prepare_render message _ uid "{user_input!r}") by (reflexivity || assumption || discriminate).
  rewrite render_tutor_field_repr. cbn [sum_bind].
  destruct (stream_end _); reflexivity.
Qed.

(** The context is checked in source order: a missing or empty [userId] is
    reported even when [tutorName] is missing too; a missing or empty
    [tutorName] is reported when [userId] is present. *)
Theorem validation_order self message context :
  (truthy (userId context) = false ->
   turn_events self message context =
   [config_error_response "User ID must be provided in context."]) /\
  (truthy (userId context) = true -> truthy (tutorName context) = false ->
   turn_events self message context =
   [config_error_response "Tutor name must be provided in context."]).
Proof.
  rewrite turn_events_closed_form. unfold turn_closed_form, prepare, truthy.
  destruct (userId context) as [[|c u]|]; (split; [intros H|intros H1 H2]);
    try discriminate; try reflexivity.
  destruct (tutorName context) as [[|c' t]|]; try discriminate; reflexivity.
Qed.

Lemma lower_char_idem (c : ascii) : lower_char (lower_char c) = lower_char c.
Proof. destruct c as [[] [] [] [] [] [] [] []]; reflexivity. Qed.

Lemma lower_idem (s : string) : lower (lower s) = lower s.
Proof. induction s as [|c s IH]; simpl; [reflexivity | now rewrite lower_char_idem, IH]. Qed.

(** The id-note trigger ignores letter case in the message: a message and
    its lowercase form give the same decision, and so do any two messages
    with the same lowercase form ("WHAT'S MY EMAIL" triggers like "what's
    my email"). *)
Theorem id_trigger_case_insensitive uid m1 m2 :
  asks_for_id uid m1 = asks_for_id uid (lower m1) /\
  (lower m1 = lower m2 -> asks_for_id uid m1 = asks_for_id uid m2).
Proof.
  unfold asks_for_id. rewrite lower_idem. split; [reflexivity|].
  intros H. now rewrite H.
Qed.

(** A user id without '@' never triggers the note: the human message is
    the message verbatim, whatever phrase it contains. *)
Theorem no_at_sign_no_note self message uid tn p
  (Hat : contains "@" uid = false)
  (H : In (StreamCall p) (turn_calls self message (mkContext (Some uid) (Some tn)))) :
  exists sp, p = [mkMessage System sp; mkMessage Human message].
Proof.
  destruct (stream_call_shape _ _ _ _ _ H) as (sp & _ & ->).
  exists sp. unfold human_message_content, asks_for_id. now rewrite Hat.
Qed.

Lemma flat_map_chunk_events frags :
  flat_map (fun e => if is_final e then []
                     else match text_chunk e with Some s => [s] | None => [] end)
           (map chunk_event frags) = frags.
Proof. induction frags as [|f l IH]; simpl; [reflexivity | now rewrite IH]. Qed.

(** The follow-up generation receives the original message (never the
    version with the id note) and, as the main response, exactly the text
    the client received in the streamed [text_chunk]s. *)
Theorem followup_input_original_message self message context i
  (H : In (StructuredCall i) (turn_calls self message context)) :
  user_original_query i = message /\
  ai_main_response i = streamed_text (turn_events self message context).
Proof.
  destruct (structured_call_made _ _ _ _ H) as (tn & p & _ & _ & -> & Hev).
  split; [reflexivity|]. rewrite Hev. unfold streamed_text.
  rewrite flat_map_app, flat_map_chunk_events. simpl.
  destruct (structured_llm _ _ _); simpl; now rewrite app_nil_r.
Qed.

(** When the streamed completion raises after some chunks, the chunks
    already yielded stay, the handler's terminal event follows (the
    configuration message with the error text for a [ValueError], the
    generic apology otherwise), and no follow-up generation is called. *)
Theorem stream_failure_no_followup self message context p e
  (H : In (StreamCall p) (turn_calls self message context))
  (Hend : stream_end (main_llm self p) = Some e) :
  turn_calls self message context = [StreamCall p] /\
  turn_events self message context =
  map chunk_event (fragments (chunks (main_llm self p))) ++ [handler_event e].
Proof.
  destruct (stream_call_prepared _ _ _ _ H) as [[tn Hp] _].
  rewrite turn_calls_closed_form, turn_events_closed_form. unfold turn_closed_form.
  rewrite Hp, Hend. split; reflexivity.
Qed.

(** A turn makes at most one call of each model, the follow-up call only
    after the streamed one: its calls are none, the streamed call alone,
    or the streamed call then the structured call. *)
Theorem turn_calls_shape self message context :
  turn_calls self message context = [] \/
  (exists p, turn_calls self message context = [StreamCall p]) \/
  (exists p i, turn_calls self message context = [StreamCall p; StructuredCall i]).
Proof.
  rewrite turn_calls_closed_form. unfold turn_closed_form.
  destruct (prepare message context) as [e|[tn p]]; [now left|].
  destruct (stream_end (main_llm self p)); simpl; right; [left | right]; eauto.
Qed.

End Service.

(* ------------------------------------------------------------------ *)
(** ** The examples, in the runtime [str_attr_runtime_example] *)

#[local] Existing Instance str_attr_runtime_example.

Lemma C3_missing_user_or_tutor_single_terminal_witness :
  turn_calls svc_example "hi" (mkContext (Some "") (Some "Ada")) = [] /\
  exists msg,
    turn_events svc_example "hi" (mkContext (Some "") (Some "Ada")) = [mkResponse (Some msg) None true] /\
    msg <> EmptyString.
Proof. apply C3_missing_user_or_tutor_single_terminal. left. reflexivity. Defined.

(** C3 counterexample: the service performs no check on [conversationId]
    (it is not one of its parameters): for a request whose
    [conversationId] is empty but whose context is valid, the streamed
    completion is called and three events are yielded. *)
Lemma C3_empty_conversationId_not_checked :
  let req := mkChatRequest "" "hi" (mkChatContext "a@b.com" "Ada") in
  conversationId req = EmptyString /\
  calls (request_turn svc_example req) <> [] /\
  length (emitted (request_turn svc_example req)) = 3.
Proof. vm_compute. split; [reflexivity|]. split; [discriminate | reflexivity]. Qed.

(** C9 counterexample: with no [userId] the only event, the terminal one,
    carries a [text_chunk]. *)
Lemma C9_terminal_event_with_text_chunk :
  turn_events svc_example "hi" (mkContext None (Some "Ada")) =
    [config_error_response "User ID must be provided in context."] /\
  is_final (config_error_response "User ID must be provided in context.") = true /\
  text_chunk (config_error_response "User ID must be provided in context.") <> None.
Proof. split; [reflexivity|]. split; [reflexivity | discriminate]. Qed.

Lemma C4_prompt_system_then_current_human_witness :
  exists sp,
    render [("user_input", human_message_content "a@b.com" "hi")] (system_prompt_text "Ada") = inr sp /\
    prompt_example "hi" = [mkMessage System sp; mkMessage Human (human_message_content "a@b.com" "hi")].
Proof.
  apply (C4_prompt_system_then_current_human svc_example "hi" "a@b.com" "Ada").
  vm_compute. left. reflexivity.
Defined.

(** C4 counterexample: two turns in a row with the same service and the
    same user; the second turn's prompt holds only the system message and
    the second message, none of the first turn's human/ai pair. *)
Lemma C4_second_turn_prompt_lacks_first_turn :
  let '(t1, s1) := chat_turn svc_example "What are arrays?" ctx_example in
  let '(t2, _) := chat_turn s1 "Tell me more" ctx_example in
  stream_prompts (calls t1) = [prompt_example "What are arrays?"] /\
  stream_prompts (calls t2) = [prompt_example "Tell me more"] /\
  ~ In (mkMessage Human "What are arrays?") (prompt_example "Tell me more") /\
  ~ In (mkMessage AI "Hello world") (prompt_example "Tell me more").
Proof.
  cbv beta iota zeta delta [chat_turn].
  split; [reflexivity|]. split; [reflexivity|].
  unfold prompt_example. cbn [In].
  split; intros [Hm|[Hm|Hm]]; solve [discriminate | contradiction].
Qed.

Lemma C5_no_conversation_memory_witness :
  snd (chat_turn svc_example "hi" ctx_example) = svc_example /\
  stream_prompts (turn_calls svc_example "hi" ctx_example) = [prompt_example "hi"] /\
  prompt_history (prompt_example "hi") = [].
Proof.
  apply C5_no_conversation_memory. vm_compute. left. reflexivity.
Defined.

(** C5 counterexample: after a successful turn ("hi" answered with
    "Hello world"), the next turn of the same user on the same service
    gets a prompt with no history, so no history ending in that human/ai
    pair is available to it. *)
Lemma C5_no_history_after_successful_turn :
  let '(t1, s1) := chat_turn svc_example "hi" ctx_example in
  let '(t2, _) := chat_turn s1 "and then?" ctx_example in
  emitted t1 = [chunk_event "Hello"; chunk_event " world"; mkResponse None None true] /\
  stream_prompts (calls t2) = [prompt_example "and then?"] /\
  ~ (exists h, prompt_history (prompt_example "and then?") =
               h ++ [mkMessage Human "hi"; mkMessage AI "Hello world"]).
Proof.
  cbv beta iota zeta delta [chat_turn].
  split; [reflexivity|]. split; [reflexivity|].
  intros [h Hh]. unfold prompt_history, prompt_example in Hh. cbn in Hh.
  symmetry in Hh. apply app_eq_nil in Hh. destruct Hh as [_ Hh]. discriminate.
Qed.

Lemma C6_followup_failure_recovered_witness :
  snd (run_turn svc_followup_fails "hi" ctx_example) = inr tt /\
  exists pre,
    turn_events svc_followup_fails "hi" ctx_example = pre ++ [mkResponse None None true] /\
    Forall (fun x => is_final x = false) pre.
Proof.
  apply (C6_followup_failure_recovered svc_followup_fails "hi" "a@b.com" "Ada"
           (mkStructuredInput "hi" "Hello world")
           (ValidationError "1 validation error for LLMStructuredOutput")).
  - vm_compute. right. left. reflexivity.
  - reflexivity.
Defined.

Lemma C7_user_id_only_on_trigger_witness :
  (exists sp, prompt_example "hi" =
     [mkMessage System sp; mkMessage Human (human_message_content "a@b.com" "hi")]) /\
  (asks_for_id "a@b.com" "hi" = true ->
     human_message_content "a@b.com" "hi" = ("hi" ++ id_note "a@b.com")%string /\
     contains "a@b.com" (human_message_content "a@b.com" "hi") = true) /\
  (contains "my email" (lower "hi") = false ->
   contains "what's my email" (lower "hi") = false ->
   contains "my user id" (lower "hi") = false ->
   human_message_content "a@b.com" "hi" = "hi" /\
   forall uid', uid' <> EmptyString ->
     run_turn svc_example "hi" (mkContext (Some uid') (Some "Ada")) =
     run_turn svc_example "hi" (mkContext (Some "a@b.com") (Some "Ada"))).
Proof.
  apply (C7_user_id_only_on_trigger svc_example "hi" "a@b.com" "Ada").
  vm_compute. left. reflexivity.
Defined.

Lemma C8_fragments_streamed_in_order_witness :
  In (StructuredCall (mkStructuredInput "hi" (String.concat "" ["Hello"; " world"])))
     (turn_calls svc_example "hi" ctx_example) /\
  exists e,
    turn_events svc_example "hi" ctx_example = map chunk_event ["Hello"; " world"] ++ [e] /\
    is_final e = true.
Proof.
  apply (C8_fragments_streamed_in_order svc_example "hi" "a@b.com" "Ada" (prompt_example "hi")).
  - vm_compute. left. reflexivity.
  - reflexivity.
  - repeat constructor; discriminate.
  - reflexivity.
Defined.

Lemma C10_follow_ups_normalised_witness :
  (exists pre,
     turn_events svc_long_followups "hi" ctx_example =
     pre ++ [mkResponse None (final_follow_ups (follow_up_questions long_followup_output)) true]) /\
  (final_follow_ups (follow_up_questions long_followup_output) = None \/
   exists l, final_follow_ups (follow_up_questions long_followup_output) = Some l /\ l <> [] /\
     Forall (fun q => exists s, q = PyStr s /\ strip_nonempty s = true) l) /\
  (follow_up_questions long_followup_output = Some [] ->
     final_follow_ups (follow_up_questions long_followup_output) = None) /\
  (forall l, follow_up_questions long_followup_output = Some l ->
     existsb (fun q => negb (valid_item q)) l = true ->
     final_follow_ups (follow_up_questions long_followup_output) = None) /\
  (forall l, follow_up_questions long_followup_output = Some l -> l <> [] ->
     forallb valid_item l = true ->
     final_follow_ups (follow_up_questions long_followup_output) = Some l).
Proof.
  apply (C10_follow_ups_normalised svc_long_followups "hi" "a@b.com" "Ada"
           (mkStructuredInput "hi" "Hello world")).
  - vm_compute. right. left. reflexivity.
  - reflexivity.
Defined.

Lemma init_rejects_missing_env_var_witness :
  In "AZURE_OPENAI_API_KEY"
     (filter (fun k => env_value_missing (env_key_blank k)) required_env_var_names) /\
  service_init env_key_blank (fun _ => None) =
  inl (MkChatServiceError
         ("Missing or empty required environment variables: " ++
          String.concat ", " (filter (fun k => env_value_missing (env_key_blank k)) required_env_var_names))).
Proof.
  apply init_rejects_missing_env_var.
  - simpl. right. right. right. left. reflexivity.
  - reflexivity.
Defined.

Lemma init_builds_both_clients_witness :
  exists ver dep endp key,
    env_complete "AZURE_OPENAI_API_VERSION" = Some ver /\
    env_complete "AZURE_OPENAI_DEPLOYMENT_NAME" = Some dep /\
    env_complete "AZURE_OPENAI_ENDPOINT" = Some endp /\ env_complete "AZURE_OPENAI_API_KEY" = Some key /\
    service_init env_complete (fun _ => None) =
    inr (mkAzureConfig ver dep endp key 7 true false, mkAzureConfig ver dep endp key 3 false true).
Proof.
  apply init_builds_both_clients; [|reflexivity].
  intros k Hk. simpl in Hk.
  destruct Hk as [<-|[<-|[<-|[<-|[]]]]]; reflexivity.
Defined.

Lemma init_wraps_client_error_witness :
  service_init env_complete azure_init_structured_fails =
  inl (MkChatServiceError ("Failed to initialize AzureOpenAI: " ++ "invalid response format")).
Proof.
  apply (init_wraps_client_error env_complete azure_init_structured_fails "invalid response format"
           "2024-02-01" "gpt-4o" "https://example.openai.azure.com" "key");
    [| reflexivity | reflexivity | reflexivity | reflexivity | right; split; reflexivity].
  intros k Hk. simpl in Hk.
  destruct Hk as [<-|[<-|[<-|[<-|[]]]]]; reflexivity.
Defined.

Lemma brace_free_tutor_prompt_witness :
  stream_prompts (turn_calls svc_example "What's my email?" ctx_example) =
  [[mkMessage System (system_prompt_text "Ada");
    mkMessage Human (human_message_content "a@b.com" "What's my email?")]].
Proof.
  apply brace_free_tutor_prompt; [discriminate | discriminate | reflexivity].
Defined.


Lemma no_at_sign_no_note_witness :
  exists sp, prompt_example "what's my email?" =
             [mkMessage System sp; mkMessage Human "what's my email?"].
Proof.
  apply (no_at_sign_no_note svc_example "what's my email?" "student42" "Ada"); [reflexivity|].
  vm_compute. left. reflexivity.
Defined.

Lemma followup_input_original_message_witness :
  user_original_query (mkStructuredInput "What's my email?" "Hello world") = "What's my email?" /\
  ai_main_response (mkStructuredInput "What's my email?" "Hello world") =
  streamed_text (turn_events svc_example "What's my email?" ctx_example).
Proof.
  apply followup_input_original_message. vm_compute. right. left. reflexivity.
Defined.

Lemma stream_failure_no_followup_witness :
  turn_calls svc_stream_fails "hi" ctx_example = [StreamCall (prompt_example "hi")] /\
  turn_events svc_stream_fails "hi" ctx_example =
  map chunk_event (fragments (chunks (main_llm svc_stream_fails (prompt_example "hi"))))
    ++ [handler_event (OtherError "Connection reset")].
Proof.
  apply stream_failure_no_followup; [|reflexivity].
  vm_compute. left. reflexivity.
Defined.

Lemma tutor_name_field_takes_user_message_witness :
  stream_prompts (turn_calls svc_example "hi" (mkContext (Some "a@b.com") (Some "{user_input}"))) =
  [[mkMessage System (system_prompt_text (human_message_content "a@b.com" "hi"));
    mkMessage Human (human_message_content "a@b.com" "hi")]].
Proof. apply tutor_name_field_takes_user_message. discriminate. Defined.

Lemma tutor_name_repr_field_witness :
  stream_prompts (turn_calls svc_example "hi" (mkContext (Some "a@b.com") (Some "{user_input!r}"))) =
  [[mkMessage System (system_prompt_text (py_repr (human_message_content "a@b.com" "hi")));
    mkMessage Human (human_message_content "a@b.com" "hi")]].
Proof. apply tutor_name_repr_field. discriminate. Defined.
